(** * slogr: a facade over Go's log/slog, and its context carrier

    A shallow embedding of the repository's Go sources:

    - [level.go]    ([ParseLevel]),
    - [context.go]  ([WithLogger], [FromContext]),
    - the two revisions of the logger file (module [Slogr] for the one that
      renders formatted messages with [fmt.Sprintf], module [SlogrPrev] for
      the one that hands format and arguments to slog unchanged).

    The Go standard library is not part of the repository.  The pieces the
    code calls ([strings.ToUpper], [context.WithValue], [slog.Logger.Log],
    the text and JSON handlers, [slog.Level.String]) are modelled in the
    modules [Strings], [Context] and [Slog], following their documented
    behaviour.  Time stamps and program counters of log records are left
    out; so is the concrete byte layout of a formatted line, which is
    represented by the data it is computed from. *)

From stdpp Require Import gmap strings list pretty.
From Stdlib Require Import ZArith Ascii.

Open Scope Z_scope.

(** ** Go strings: sequences of bytes *)

Module Strings.

Definition byteVal (c : ascii) : nat := nat_of_ascii c.

(** [c < utf8.RuneSelf] *)
Definition isASCIIByte (c : ascii) : bool := (byteVal c <? 128)%nat.

Definition isLower (c : ascii) : bool :=
  ((97 <=? byteVal c) && (byteVal c <=? 122))%nat.

Definition isUpper (c : ascii) : bool :=
  ((65 <=? byteVal c) && (byteVal c <=? 90))%nat.

(** [c -= 'a' - 'A'] on a lower-case ASCII letter, other bytes kept. *)
Definition upperByte (c : ascii) : ascii :=
  if isLower c then ascii_of_nat (byteVal c - 32) else c.

Fixpoint mapBytes (f : ascii -> ascii) (s : string) : string :=
  match s with
  | EmptyString => EmptyString
  | String c s' => String (f c) (mapBytes f s')
  end.

Fixpoint allBytes (p : ascii -> bool) (s : string) : bool :=
  match s with
  | EmptyString => true
  | String c s' => p c && allBytes p s'
  end.

Fixpoint anyByte (p : ascii -> bool) (s : string) : bool :=
  match s with
  | EmptyString => false
  | String c s' => p c || anyByte p s'
  end.

Section ToUpper.

(** [strings.Map(unicode.ToUpper, s)]: the path [strings.ToUpper] takes
    for a string that holds a byte of 0x80 or more.  It needs the
    Unicode case tables, which stay a parameter here. *)
Variable mapUnicodeUpper : string -> string.

(** [strings.ToUpper]: an ASCII-only string has its bytes 'a'..'z'
    shifted to 'A'..'Z'; any other string goes through the Unicode
    mapping. *)
Definition ToUpper (s : string) : string :=
  if allBytes isASCIIByte s then mapBytes upperByte s
  else mapUnicodeUpper s.

End ToUpper.

(** ASCII case folding of one byte against another, as in
    [strings.EqualFold] restricted to ASCII: equal, or the same letter in
    the two cases. *)
Definition foldByteEq (a b : ascii) : bool :=
  Ascii.eqb a b
  || (isUpper a && (byteVal a + 32 =? byteVal b)%nat)
  || (isUpper b && (byteVal b + 32 =? byteVal a)%nat).

(** Case-insensitive exact match of two byte strings. *)
Fixpoint eqFoldASCII (s t : string) : bool :=
  match s, t with
  | EmptyString, EmptyString => true
  | String a s', String b t' => foldByteEq a b && eqFoldASCII s' t'
  | _, _ => false
  end.

(** What the Unicode tables guarantee about the non-ASCII path: a string
    with a byte of 0x80 or more holds a rune outside ASCII (or an invalid
    byte, mapped to U+FFFD); its upper case is again outside ASCII, except
    for U+0131 and U+017F, whose upper cases are 'I' and 'S'. *)
Definition unicodeUpperSpec (mapUnicodeUpper : string -> string) : Prop :=
  forall s, allBytes isASCIIByte s = false ->
    anyByte (fun c => negb (isASCIIByte c) || Ascii.eqb c "I" || Ascii.eqb c "S")
            (mapUnicodeUpper s) = true.

End Strings.

(** ** log/slog levels *)

Module SlogLevel.

(** [type Level int] *)
Definition Level := Z.

Definition LevelDebug : Level := -4.
Definition LevelInfo  : Level := 0.
Definition LevelWarn  : Level := 4.
Definition LevelError : Level := 8.

(** [fmt.Sprintf("%+d", val)] *)
Definition signedDecimal (val : Z) : string :=
  (if val <? 0 then "-" else "+") +:+ pretty (Z.abs_N val).

(** The closure [str] of [Level.String]. *)
Definition str (base : string) (val : Level) : string :=
  if val =? 0 then base else base +:+ signedDecimal val.

(** [func (l Level) String() string] *)
Definition LevelString (l : Level) : string :=
  if l <? LevelInfo then str "DEBUG" (l - LevelDebug)
  else if l <? LevelWarn then str "INFO" (l - LevelInfo)
  else if l <? LevelError then str "WARN" (l - LevelWarn)
  else str "ERROR" (l - LevelError).

End SlogLevel.

(** ** level.go *)

Module LevelParser.
Import Strings SlogLevel.

Section ParseLevel.
Variable mapUnicodeUpper : string -> string.

(** [func ParseLevel(s string) slog.Level] *)
Definition ParseLevel (s : string) : Level :=
  let u := ToUpper mapUnicodeUpper s in
  if String.eqb u "INFO" then LevelInfo
  else if String.eqb u "WARN" then LevelWarn
  else if String.eqb u "ERROR" then LevelError
  else if String.eqb u "DEBUG" then LevelDebug
  else LevelInfo.

End ParseLevel.

(** The level a name denotes when compared without regard to ASCII
    case, INFO when it is none of the four names. *)
Definition levelOfName (s : string) : Level :=
  if eqFoldASCII s "INFO" then LevelInfo
  else if eqFoldASCII s "WARN" then LevelWarn
  else if eqFoldASCII s "ERROR" then LevelError
  else if eqFoldASCII s "DEBUG" then LevelDebug
  else LevelInfo.

End LevelParser.

(** ** The context package, as far as context.go uses it *)

Module Context.

(** A [*Logger]: the address of a Logger object, [None] for the nil
    pointer. *)
Definition LoggerRef := option nat.

(** A context key: an interface value, equal to another when the dynamic
    types and the values agree. *)
Record Key := { keyType : string; keyValue : string }.

Definition Key_eqb (a b : Key) : bool :=
  String.eqb (keyType a) (keyType b) && String.eqb (keyValue a) (keyValue b).

(** The interface values [ctx.Value] can return: the nil interface, a
    [*Logger] (a nil pointer included), or a value of another type. *)
Inductive CtxValue :=
| NilInterface
| OfLogger (p : LoggerRef)
| OfOther (type : string) (value : string).

(** A [context.Context]: the empty root, or a pointer to a [valueCtx]
    node.  Nodes are never updated once allocated. *)
Inductive Context :=
| Background
| valueCtxAt (addr : nat).

Record valueCtx := { parent : Context; key : Key; val : CtxValue }.

(** The allocated nodes, newest first; the node at the head of a heap
    [n :: h] has address [length h]. *)
Definition Heap := list valueCtx.

Definition ctxValid (h : Heap) (c : Context) : Prop :=
  match c with
  | Background => True
  | valueCtxAt a => (a < length h)%nat
  end.

(** [context.WithValue]: allocates one node that points to its parent. *)
Definition WithValue (h : Heap) (parent : Context) (k : Key) (v : CtxValue)
  : Heap * Context :=
  ({| parent := parent; key := k; val := v |} :: h, valueCtxAt (length h)).

(** [ctx.Value(key)]: walks from [c] towards the root and returns the
    value of the first node whose key equals [k], the nil interface when
    there is none. *)
Fixpoint Value (h : Heap) (c : Context) (k : Key) : CtxValue :=
  match h with
  | [] => NilInterface
  | n :: h' =>
      match c with
      | Background => NilInterface
      | valueCtxAt a =>
          if (a =? length h')%nat
          then if Key_eqb (key n) k then val n else Value h' (parent n) k
          else Value h' c k
      end
  end.

(** The keys on the chain from [c] to the root. *)
Fixpoint chainKeys (h : Heap) (c : Context) : list Key :=
  match h with
  | [] => []
  | n :: h' =>
      match c with
      | Background => []
      | valueCtxAt a =>
          if (a =? length h')%nat
          then key n :: chainKeys h' (parent n)
          else chainKeys h' c
      end
  end.

End Context.

(** ** context.go *)

Module ContextCarrier.
Import Context.

(** [const LoggerKey ContextKey = "slogr_logger"] *)
Definition LoggerKey : Key :=
  {| keyType := "slogr.ContextKey"; keyValue := "slogr_logger" |}.

(** [func WithLogger(ctx context.Context, logger *Logger) context.Context] *)
Definition WithLogger (h : Heap) (ctx : Context) (logger : LoggerRef)
  : Heap * Context :=
  WithValue h ctx LoggerKey (OfLogger logger).

(** [func FromContext(ctx context.Context) *Logger]: the type assertion
    to [*Logger] succeeds exactly on an interface value whose dynamic
    type is [*Logger]. *)
Definition FromContext (h : Heap) (ctx : Context) : LoggerRef :=
  match Value h ctx LoggerKey with
  | OfLogger logger => logger
  | _ => None
  end.

End ContextCarrier.

(** ** log/slog: records, handlers, and [Logger.Log] *)

Module Slog.
Export SlogLevel.
Import Context.

(** The [any] values passed as log arguments. *)
Inductive Any :=
| AStr (s : string)
| AInt (n : Z)
| ABool (b : bool)
| AAttr (k : string) (v : Any).

(** [slog.Attr] *)
Definition Attr : Type := string * Any.

(** [slog.Record], without its time and program counter. *)
Record LogRecord := {
  r_Level : Level;
  r_Message : string;
  r_Attrs : list Attr
}.

Definition badKey : string := "!BADKEY".

(** [Record.Add(args...)], the loop over [argsToAttr]: a string is a key
    for the value after it, an [Attr] stands for itself, anything else
    (and a string in last position) goes under [badKey]. *)
Fixpoint argsToAttrs (args : list Any) : list Attr :=
  match args with
  | [] => []
  | AStr k :: [] => [(badKey, AStr k)]
  | AStr k :: v :: rest => (k, v) :: argsToAttrs rest
  | AAttr k v :: rest => (k, v) :: argsToAttrs rest
  | x :: rest => (badKey, x) :: argsToAttrs rest
  end.

(** [slog.HandlerOptions]; [ho_Level] is the [Leveler], [None] when the
    field is left nil. *)
Record HandlerOptions := {
  ho_AddSource : bool;
  ho_Level : option Level;
  ho_ReplaceAttr : option (list string -> Attr -> Attr)
}.

(** The minimum level of a built-in handler: [LevelInfo] when the
    options name none. *)
Definition minLevel (opts : HandlerOptions) : Level :=
  match ho_Level opts with
  | Some l => l
  | None => LevelInfo
  end.

Inductive Format := FormatJSON | FormatText.

(** One line written by a built-in handler, given by what it is
    formatted from. *)
Record Entry := {
  e_format : Format;
  e_addSource : bool;
  e_replaceAttr : option (list string -> Attr -> Attr);
  e_record : LogRecord
}.

(** An [io.Writer] that keeps what is written to it (a [bytes.Buffer]),
    named by its identity. *)
Definition Writer := nat.

(** The content of every writer. *)
Abbreviation World := (gmap nat (list Entry)).

Definition written (st : World) (w : Writer) : list Entry :=
  default [] (st !! w).

(** [w.Write(line)] *)
Definition Write (w : Writer) (e : Entry) (st : World) : World :=
  <[w := written st w ++ [e]]> st.

(** The [slog.Handler] interface, by the two methods the code calls. *)
Record Handler := {
  Enabled : Context -> Level -> bool;
  Handle : Context -> LogRecord -> World -> World
}.

Definition formatEntry (f : Format) (opts : HandlerOptions) (r : LogRecord)
  : Entry :=
  {| e_format := f; e_addSource := ho_AddSource opts;
     e_replaceAttr := ho_ReplaceAttr opts; e_record := r |}.

(** [slog.NewJSONHandler(w, opts)] *)
Definition NewJSONHandler (w : Writer) (opts : HandlerOptions) : Handler :=
  {| Enabled := fun _ l => minLevel opts <=? l;
     Handle := fun _ r => Write w (formatEntry FormatJSON opts r) |}.

(** [slog.NewTextHandler(w, opts)] *)
Definition NewTextHandler (w : Writer) (opts : HandlerOptions) : Handler :=
  {| Enabled := fun _ l => minLevel opts <=? l;
     Handle := fun _ r => Write w (formatEntry FormatText opts r) |}.

(** [slog.Logger] *)
Record SlogLogger := { handler : Handler }.

(** [slog.New(h)] *)
Definition SlogNew (h : Handler) : SlogLogger := {| handler := h |}.

(** [func (l *Logger) Log(ctx, level, msg, args...)]: nothing happens
    unless the handler is enabled for the level; otherwise one record is
    built and handed to the handler, whose error is dropped. *)
Definition SlogLog (l : SlogLogger) (ctx : Context) (level : Level)
    (msg : string) (args : list Any) (st : World) : World :=
  if Enabled (handler l) ctx level
  then Handle (handler l) ctx
         {| r_Level := level; r_Message := msg; r_Attrs := argsToAttrs args |} st
  else st.

End Slog.

(** ** The logger, revision with [fmt.Sprintf] in [Logf] *)

Module Slogr.
Export Slog.
Import Context.

(** [type HandlerType int], with [HandlerTypeJSON = iota] and
    [HandlerTypeText] after it. *)
Definition HandlerType := Z.
Definition HandlerTypeJSON : HandlerType := 0.
Definition HandlerTypeText : HandlerType := 1.

(** [type Options struct].  The fields carry the prefix [o_], their Go
    names being those of types. *)
Record Options := {
  o_Level : Level;
  o_AddLevelPrefix : bool;
  o_HandlerType : HandlerType;
  o_CustomHandler : option Handler;
  o_HandlerOptions : option HandlerOptions
}.

(** [func DefaultOptions() *Options] *)
Definition DefaultOptions : Options :=
  {| o_Level := LevelInfo;
     o_AddLevelPrefix := false;
     o_HandlerType := HandlerTypeText;
     o_CustomHandler := None;
     o_HandlerOptions :=
       Some {| ho_AddSource := false;
               ho_Level := Some LevelInfo;
               ho_ReplaceAttr := Some (fun _ a => a) |} |}.

(** [type Logger struct] *)
Record Logger := {
  level : Level;
  shouldPreficMessageWithLevel : bool;
  handlerType : HandlerType;
  writerType : Writer;
  slogger : SlogLogger
}.

(** [type levelPrefixHandler struct { slog.Handler }]: [Enabled] is the
    embedded handler's; [Handle] rewrites the message and delegates. *)
Definition levelPrefixHandler (h : Handler) : Handler :=
  {| Enabled := Enabled h;
     Handle := fun ctx r =>
       Handle h ctx
         {| r_Level := r_Level r;
            r_Message := "- " +:+ LevelString (r_Level r) +:+ " - " +:+ r_Message r;
            r_Attrs := r_Attrs r |} |}.

(** [func New(output io.Writer, opts *Options) *Logger].  (The Go code
    also stores the options it builds for a nil [HandlerOptions] back into
    the caller's [Options]; a later [New] on the same struct then finds them
    as supplied options.  Each call is modelled on the options it reads.) *)
Definition New (output : Writer) (opts : option Options) : Logger :=
  let opts := match opts with None => DefaultOptions | Some o => o end in
  let hopts :=
    match o_HandlerOptions opts with
    | None => {| ho_AddSource := false; ho_Level := Some (o_Level opts);
                 ho_ReplaceAttr := None |}
    | Some ho => ho
    end in
  let handler :=
    match o_CustomHandler opts with
    | Some custom => custom
    | None =>
        if o_HandlerType opts =? HandlerTypeJSON
        then NewJSONHandler output hopts
        else NewTextHandler output hopts
    end in
  let handler :=
    if o_AddLevelPrefix opts then levelPrefixHandler handler else handler in
  {| level := o_Level opts;
     shouldPreficMessageWithLevel := o_AddLevelPrefix opts;
     handlerType := o_HandlerType opts;
     slogger := SlogNew handler;
     writerType := output |}.

(** [func (logger *Logger) SetHandler(output, handlerType, opts)] *)
Definition SetHandler (output : Writer) (ht : HandlerType)
    (opts : option HandlerOptions) (logger : Logger) : Logger :=
  let opts :=
    match opts with
    | None => {| ho_AddSource := false; ho_Level := Some (level logger);
                 ho_ReplaceAttr := None |}
    | Some ho => ho
    end in
  let handler :=
    if ht =? HandlerTypeJSON
    then NewJSONHandler output opts
    else NewTextHandler output opts in
  let handler :=
    if shouldPreficMessageWithLevel logger
    then levelPrefixHandler handler else handler in
  {| level := level logger;
     shouldPreficMessageWithLevel := shouldPreficMessageWithLevel logger;
     handlerType := handlerType logger;
     writerType := writerType logger;
     slogger := SlogNew handler |}.

(** [func (logger *Logger) SetOutput(output io.Writer)] *)
Definition SetOutput (output : Writer) (logger : Logger) : Logger :=
  SetHandler output (handlerType logger)
    (Some {| ho_AddSource := false; ho_Level := Some (level logger);
             ho_ReplaceAttr := None |})
    logger.

(** [func (logger *Logger) SetLevel(level slog.Level)] *)
Definition SetLevel (lvl : Level) (logger : Logger) : Logger :=
  let logger :=
    {| level := lvl;
       shouldPreficMessageWithLevel := shouldPreficMessageWithLevel logger;
       handlerType := handlerType logger;
       writerType := writerType logger;
       slogger := slogger logger |} in
  SetHandler (writerType logger) (handlerType logger)
    (Some {| ho_AddSource := false; ho_Level := Some lvl;
             ho_ReplaceAttr := None |})
    logger.

Definition GetLevel (logger : Logger) : Level := level logger.

Definition GetHandlerType (logger : Logger) : HandlerType := handlerType logger.

(** [func (logger *Logger) SetCustomHandler(handler slog.Handler)] *)
Definition SetCustomHandler (h : Handler) (logger : Logger) : Logger :=
  let h := if shouldPreficMessageWithLevel logger then levelPrefixHandler h else h in
  {| level := level logger;
     shouldPreficMessageWithLevel := shouldPreficMessageWithLevel logger;
     handlerType := handlerType logger;
     writerType := writerType logger;
     slogger := SlogNew h |}.

(** [func (logger *Logger) Log(ctx, level, msg, args...)] *)
Definition Log (logger : Logger) (ctx : Context) (lvl : Level) (msg : string)
    (args : list Any) (st : World) : World :=
  SlogLog (slogger logger) ctx lvl msg args st.

Definition Debug (logger : Logger) ctx msg args := Log logger ctx LevelDebug msg args.
Definition Info (logger : Logger) ctx msg args := Log logger ctx LevelInfo msg args.
Definition Warn (logger : Logger) ctx msg args := Log logger ctx LevelWarn msg args.
Definition Error (logger : Logger) ctx msg args := Log logger ctx LevelError msg args.
Definition Fatal (logger : Logger) ctx msg args := Log logger ctx (LevelError + 4) msg args.

Section Formatted.
(** [fmt.Sprintf] *)
Variable Sprintf : string -> list Any -> string.

(** [func (logger *Logger) Logf(ctx, level, format, args...)] *)
Definition Logf (logger : Logger) (ctx : Context) (lvl : Level)
    (format : string) (args : list Any) (st : World) : World :=
  let formattedMsg := Sprintf format args in
  SlogLog (slogger logger) ctx lvl formattedMsg [] st.

Definition Debugf (logger : Logger) ctx format args := Logf logger ctx LevelDebug format args.
Definition Infof (logger : Logger) ctx format args := Logf logger ctx LevelInfo format args.
Definition Warnf (logger : Logger) ctx format args := Logf logger ctx LevelWarn format args.
Definition Errorf (logger : Logger) ctx format args := Logf logger ctx LevelError format args.
Definition Fatalf (logger : Logger) ctx format args := Logf logger ctx (LevelError + 4) format args.

End Formatted.

(** A leveled log call, plain or formatted. *)
Inductive LogCall :=
| CallLog (lvl : Level) (msg : string) (args : list Any)
| CallLogf (lvl : Level) (format : string) (args : list Any).

Definition runCall (Sprintf : string -> list Any -> string) (logger : Logger)
    (ctx : Context) (c : LogCall) (st : World) : World :=
  match c with
  | CallLog lvl msg args => Log logger ctx lvl msg args st
  | CallLogf lvl format args => Logf Sprintf logger ctx lvl format args st
  end.

(** A sequence of log calls on one logger, in order. *)
Definition runCalls (Sprintf : string -> list Any -> string) (logger : Logger)
    (ctx : Context) (cs : list LogCall) (st : World) : World :=
  fold_left (fun st c => runCall Sprintf logger ctx c st) cs st.

End Slogr.

(** ** The logger, revision without [fmt.Sprintf] *)

Module SlogrPrev.
Export Slog.
Import Context.

(** The types, level-prefix handler and the methods [SetHandler],
    [SetOutput], [SetLevel], [GetLevel], [GetHandlerType] and
    [SetCustomHandler] read the same in both revisions. *)
Abbreviation Options := Slogr.Options.
Abbreviation Logger := Slogr.Logger.

(** [func DefaultOptions() *Options]: here with [AddLevelPrefix: true]. *)
Definition DefaultOptions : Options :=
  {| Slogr.o_Level := LevelInfo;
     Slogr.o_AddLevelPrefix := true;
     Slogr.o_HandlerType := Slogr.HandlerTypeText;
     Slogr.o_CustomHandler := None;
     Slogr.o_HandlerOptions :=
       Some {| ho_AddSource := false;
               ho_Level := Some LevelInfo;
               ho_ReplaceAttr := Some (fun _ a => a) |} |}.

(** [func New(output io.Writer, opts *Options) *Logger] *)
Definition New (output : Writer) (opts : option Options) : Logger :=
  let opts := match opts with None => DefaultOptions | Some o => o end in
  let hopts :=
    match Slogr.o_HandlerOptions opts with
    | None => {| ho_AddSource := false; ho_Level := Some (Slogr.o_Level opts);
                 ho_ReplaceAttr := None |}
    | Some ho => ho
    end in
  let handler :=
    match Slogr.o_CustomHandler opts with
    | Some custom => custom
    | None =>
        if Slogr.o_HandlerType opts =? Slogr.HandlerTypeJSON
        then NewJSONHandler output hopts
        else NewTextHandler output hopts
    end in
  let handler :=
    if Slogr.o_AddLevelPrefix opts
    then Slogr.levelPrefixHandler handler else handler in
  {| Slogr.level := Slogr.o_Level opts;
     Slogr.shouldPreficMessageWithLevel := Slogr.o_AddLevelPrefix opts;
     Slogr.handlerType := Slogr.o_HandlerType opts;
     Slogr.slogger := SlogNew handler;
     Slogr.writerType := output |}.

(** [func (logger *Logger) Log(ctx, level, msg)] *)
Definition Log (logger : Logger) (ctx : Context) (lvl : Level) (msg : string)
    (st : World) : World :=
  SlogLog (Slogr.slogger logger) ctx lvl msg [] st.

(** [func (logger *Logger) Logf(ctx, level, msg, args...)]: message and
    arguments go to [slog.Logger.Log] as they are. *)
Definition Logf (logger : Logger) (ctx : Context) (lvl : Level) (msg : string)
    (args : list Any) (st : World) : World :=
  SlogLog (Slogr.slogger logger) ctx lvl msg args st.

Definition Debugf (logger : Logger) ctx format args := Logf logger ctx LevelDebug format args.
Definition Infof (logger : Logger) ctx format args := Logf logger ctx LevelInfo format args.
Definition Warnf (logger : Logger) ctx format args := Logf logger ctx LevelWarn format args.
Definition Errorf (logger : Logger) ctx format args := Logf logger ctx LevelError format args.
Definition Fatalf (logger : Logger) ctx format args := Logf logger ctx (LevelError + 4) format args.

End SlogrPrev.

(** ** Vocabulary for the statements below *)

Module Observe.
Export Slogr.
Import Context.

(** [st'] is [st] with one more line in writer [w]. *)
Definition writesTo (st st' : World) (w : Writer) : Prop :=
  exists e, st' = Write w e st.

(** The built-in handler that the [switch] on a handler type selects. *)
Definition formatOf (ht : HandlerType) : Format :=
  if ht =? HandlerTypeJSON then FormatJSON else FormatText.

(** The handler options that [SetOutput] and [SetLevel] build. *)
Definition levelOnly (lvl : Level) : HandlerOptions :=
  {| ho_AddSource := false; ho_Level := Some lvl; ho_ReplaceAttr := None |}.

(** The message a record carries after the level-prefix decoration. *)
Definition prefixed (lvl : Level) (msg : string) : string :=
  "- " +:+ LevelString lvl +:+ " - " +:+ msg.

Definition decorate (prefix : bool) (r : LogRecord) : LogRecord :=
  {| r_Level := r_Level r;
     r_Message := if prefix then prefixed (r_Level r) (r_Message r) else r_Message r;
     r_Attrs := r_Attrs r |}.

Definition callLevel (c : LogCall) : Level :=
  match c with
  | CallLog lvl _ _ => lvl
  | CallLogf lvl _ _ => lvl
  end.

(** The record a call asks for: the message with its attributes, or the
    rendered format without attributes. *)
Definition callRecord (Sprintf : string -> list Any -> string) (c : LogCall)
  : LogRecord :=
  match c with
  | CallLog lvl msg args =>
      {| r_Level := lvl; r_Message := msg; r_Attrs := argsToAttrs args |}
  | CallLogf lvl format args =>
      {| r_Level := lvl; r_Message := Sprintf format args; r_Attrs := [] |}
  end.

(** The lines a logger with the settings of [l] (threshold, handler type,
    prefix flag) owes for the calls [cs]. *)
Definition emitted (Sprintf : string -> list Any -> string) (l : Logger)
    (cs : list LogCall) : list Entry :=
  map (fun c => formatEntry (formatOf (handlerType l)) (levelOnly (level l))
                  (decorate (shouldPreficMessageWithLevel l) (callRecord Sprintf c)))
      (List.filter (fun c => level l <=? callLevel c) cs).

(** A handler made of the built-in ones on writer [w], decorated or not. *)
Inductive builtinOn (w : Writer) : Handler -> Prop :=
| builtin_json opts : builtinOn w (NewJSONHandler w opts)
| builtin_text opts : builtinOn w (NewTextHandler w opts)
| builtin_prefix h : builtinOn w h -> builtinOn w (levelPrefixHandler h).

(** Every leveled call on [l] adds one line to [w] when its level is at
    least [thr], and leaves every writer as it was otherwise. *)
Definition filtersAt (thr : Level) (w : Writer) (l : Logger) : Prop :=
  forall Sprintf ctx c st,
    (writesTo st (runCall Sprintf l ctx c st) w <-> thr <= callLevel c)
    /\ (runCall Sprintf l ctx c st = st <-> callLevel c < thr).

(** The calls on [l] are those of a built-in handler on [w] with minimum
    level [thr] that formats call [c] as [f c]. *)
Definition actsAs (thr : Level) (w : Writer) (f : LogCall -> Entry)
    (Sprintf : string -> list Any -> string) (l : Logger) : Prop :=
  forall ctx c st,
    runCall Sprintf l ctx c st
    = if thr <=? callLevel c then Write w (f c) st else st.

(** Options without a custom handler. *)
Definition plainOptions (T : Level) (p : bool) (ht : HandlerType)
    (ho : option HandlerOptions) : Options :=
  {| o_Level := T; o_AddLevelPrefix := p; o_HandlerType := ht;
     o_CustomHandler := None; o_HandlerOptions := ho |}.

Definition withPrefix (b : bool) (o : Options) : Options :=
  {| o_Level := o_Level o; o_AddLevelPrefix := b;
     o_HandlerType := o_HandlerType o; o_CustomHandler := o_CustomHandler o;
     o_HandlerOptions := o_HandlerOptions o |}.

Definition withFlag (b : bool) (l : Logger) : Logger :=
  {| level := level l; shouldPreficMessageWithLevel := b;
     handlerType := handlerType l; writerType := writerType l;
     slogger := slogger l |}.

End Observe.

(** ** Reconfiguration histories *)

Module Reconfigure.
Export Observe.

(** One call of a method that replaces the Logger's handler. *)
Inductive Mutator :=
| MSetHandler (output : Writer) (ht : HandlerType) (opts : option HandlerOptions)
| MSetOutput (output : Writer)
| MSetLevel (lvl : Level)
| MSetCustomHandler (h : Handler).

Definition mutate (m : Mutator) (l : Logger) : Logger :=
  match m with
  | MSetHandler output ht opts => SetHandler output ht opts l
  | MSetOutput output => SetOutput output l
  | MSetLevel lvl => SetLevel lvl l
  | MSetCustomHandler h => SetCustomHandler h l
  end.

(** The calls [ms] made on [l], in order. *)
Definition mutateAll (ms : list Mutator) (l : Logger) : Logger :=
  fold_left (fun l m => mutate m l) ms l.

(** The level of the last [SetLevel] among [ms], [init] when there is
    none. *)
Definition lastLevel (ms : list Mutator) (init : Level) : Level :=
  fold_left (fun lv m => match m with MSetLevel lvl => lvl | _ => lv end) ms init.

(** [SetOutput] and [SetLevel] calls only. *)
Definition outputOrLevel (m : Mutator) : bool :=
  match m with
  | MSetOutput _ | MSetLevel _ => true
  | _ => false
  end.

(** The writer of the handler after the calls [ms] of [SetOutput] and
    [SetLevel] on a Logger created on [out]: that of the last call, which
    is the given one for [SetOutput] and [out] for [SetLevel]. *)
Definition writerAfter (ms : list Mutator) (out : Writer) : Writer :=
  match last ms with
  | Some (MSetOutput B) => B
  | _ => out
  end.

(** The arguments [k1, v1, ..., kn, vn] of a call with string keys. *)
Definition keyValueArgs (kvs : list (string * Any)) : list Any :=
  flat_map (fun kv => [AStr (fst kv); snd kv]) kvs.

End Reconfigure.

(** ** The package-level logger, revision with [fmt.Sprintf] *)

Module SlogrPackage.
Export Slogr.
Import Context.

(** [os.Stdout] *)
Definition Stdout : Writer := 1%nat.

(** [var defaultLogger = New(os.Stdout, DefaultOptions())]: the value the
    package variable holds after initialisation.  The package functions
    below take the Logger the variable points to as [g]. *)
Definition defaultLogger : Logger := New Stdout (Some DefaultOptions).

(** [func SetOutput(output io.Writer)] *)
Definition SetOutput (output : Writer) (g : Logger) : Logger :=
  Slogr.SetOutput output g.

(** [func SetLevel(level slog.Level)] *)
Definition SetLevel (lvl : Level) (g : Logger) : Logger := Slogr.SetLevel lvl g.

(** [func GetLevel() slog.Level] *)
Definition GetLevel (g : Logger) : Level := Slogr.GetLevel g.

(** [func Log(ctx, level, msg, args...)] *)
Definition Log (g : Logger) (ctx : Context) (lvl : Level) (msg : string)
    (args : list Any) (st : World) : World :=
  Slogr.Log g ctx lvl msg args st.

Definition Debug (g : Logger) ctx msg args (st : World) : World := Slogr.Debug g ctx msg args st.
Definition Info (g : Logger) ctx msg args (st : World) : World := Slogr.Info g ctx msg args st.
Definition Warn (g : Logger) ctx msg args (st : World) : World := Slogr.Warn g ctx msg args st.
Definition Error (g : Logger) ctx msg args (st : World) : World := Slogr.Error g ctx msg args st.
Definition Fatal (g : Logger) ctx msg args (st : World) : World := Slogr.Fatal g ctx msg args st.

Section Formatted.
Variable Sprintf : string -> list Any -> string.

(** [func Logf(ctx, level, format, args...)] *)
Definition Logf (g : Logger) (ctx : Context) (lvl : Level) (format : string)
    (args : list Any) (st : World) : World :=
  Slogr.Logf Sprintf g ctx lvl format args st.

Definition Debugf (g : Logger) ctx format args (st : World) : World :=
  Slogr.Debugf Sprintf g ctx format args st.
Definition Infof (g : Logger) ctx format args (st : World) : World :=
  Slogr.Infof Sprintf g ctx format args st.
Definition Warnf (g : Logger) ctx format args (st : World) : World :=
  Slogr.Warnf Sprintf g ctx format args st.
Definition Errorf (g : Logger) ctx format args (st : World) : World :=
  Slogr.Errorf Sprintf g ctx format args st.
Definition Fatalf (g : Logger) ctx format args (st : World) : World :=
  Slogr.Fatalf Sprintf g ctx format args st.

End Formatted.

End SlogrPackage.

(** ** The remaining methods and the package-level logger, revision
    without [fmt.Sprintf] *)

Module SlogrPrevPackage.
Export Slog.
Import Context.

(** The plain leveled methods of this revision take no arguments after
    the message. *)
Definition Debug (logger : SlogrPrev.Logger) ctx msg (st : World) : World :=
  SlogrPrev.Log logger ctx LevelDebug msg st.
Definition Info (logger : SlogrPrev.Logger) ctx message (st : World) : World :=
  SlogrPrev.Log logger ctx LevelInfo message st.
Definition Warn (logger : SlogrPrev.Logger) ctx message (st : World) : World :=
  SlogrPrev.Log logger ctx LevelWarn message st.
Definition Error (logger : SlogrPrev.Logger) ctx message (st : World) : World :=
  SlogrPrev.Log logger ctx LevelError message st.
Definition Fatal (logger : SlogrPrev.Logger) ctx message (st : World) : World :=
  SlogrPrev.Log logger ctx (LevelError + 4) message st.

(** [var defaultLogger = New(os.Stdout, DefaultOptions())] *)
Definition defaultLogger : SlogrPrev.Logger :=
  SlogrPrev.New SlogrPackage.Stdout (Some SlogrPrev.DefaultOptions).

(** [func Log(ctx, level, message)] *)
Definition Log (g : SlogrPrev.Logger) (ctx : Context) (lvl : Level)
    (message : string) (st : World) : World :=
  SlogrPrev.Log g ctx lvl message st.

(** [func Logf(ctx, level, message, args...)] *)
Definition Logf (g : SlogrPrev.Logger) (ctx : Context) (lvl : Level)
    (message : string) (args : list Any) (st : World) : World :=
  SlogrPrev.Logf g ctx lvl message args st.

(** [func Info(ctx, message)] *)
Definition PkgInfo (g : SlogrPrev.Logger) (ctx : Context) (message : string)
    (st : World) : World :=
  Info g ctx message st.

(** [func Infof(ctx, format, args...)] *)
Definition PkgInfof (g : SlogrPrev.Logger) (ctx : Context) (format : string)
    (args : list Any) (st : World) : World :=
  SlogrPrev.Infof g ctx format args st.

End SlogrPrevPackage.

(** ** Vocabulary for level names *)

Module Letters.
Import Strings.

(** An ASCII letter, upper or lower case. *)
Definition isLetter (c : ascii) : bool := isUpper c || isLower c.

(** The key a caller gets by using the plain string of the logger key. *)
Definition plainStringKey : Context.Key :=
  {| Context.keyType := "string"; Context.keyValue := "slogr_logger" |}.

End Letters.

(** * Properties *)

(** ** Level names *)

Section ParseLevelFacts.
Import Strings SlogLevel LevelParser.

Lemma upperByte_fold (a b : ascii) :
  isUpper b = true -> Ascii.eqb (upperByte a) b = foldByteEq a b.
Proof.
  destruct b as [[] [] [] [] [] [] [] []]; intro Hb;
    try (cbv in Hb; discriminate Hb); clear Hb;
    destruct a as [[] [] [] [] [] [] [] []]; vm_compute; reflexivity.
Qed.

Lemma fold_upper_is_ascii (a b : ascii) :
  isUpper b = true -> foldByteEq a b = true -> isASCIIByte a = true.
Proof.
  destruct b as [[] [] [] [] [] [] [] []]; intro Hb;
    try (cbv in Hb; discriminate Hb); clear Hb;
    destruct a as [[] [] [] [] [] [] [] []]; vm_compute;
    first [ reflexivity | intro H; discriminate H ].
Qed.

Lemma mapBytes_upper_eqb (s t : string) :
  allBytes isUpper t = true ->
  String.eqb (mapBytes upperByte s) t = eqFoldASCII s t.
Proof.
  revert t. induction s as [|a s IH]; intros [|b t] Ht; simpl; try reflexivity.
  simpl in Ht. apply andb_prop in Ht as [Hb Ht].
  rewrite (upperByte_fold a b Hb), (IH t Ht).
  destruct (foldByteEq a b); reflexivity.
Qed.

Lemma eqFold_non_ascii (s t : string) :
  allBytes isASCIIByte s = false -> allBytes isUpper t = true ->
  eqFoldASCII s t = false.
Proof.
  revert t. induction s as [|a s IH]; intros [|b t] Hs Ht; simpl in *;
    try reflexivity; try discriminate.
  apply andb_prop in Ht as [Hb Ht].
  destruct (foldByteEq a b) eqn:Hab; [|reflexivity]. simpl.
  rewrite (fold_upper_is_ascii a b Hb Hab) in Hs. simpl in Hs.
  apply IH; assumption.
Qed.

Lemma anyByte_eqb_false (p : ascii -> bool) (u t : string) :
  anyByte p u = true -> anyByte p t = false -> String.eqb u t = false.
Proof.
  intros Hu Ht. destruct (String.eqb u t) eqn:E; [|reflexivity].
  apply String.eqb_eq in E. subst u. congruence.
Qed.

(** The identity meets [unicodeUpperSpec]: it keeps the byte of 0x80 or
    more that the input holds. *)
Lemma unicodeUpperSpec_id : unicodeUpperSpec (fun s => s).
Proof.
  intros s. induction s as [|c s IH]; simpl; intro H; [discriminate|].
  destruct (isASCIIByte c); simpl in *; [|reflexivity].
  rewrite (IH H). destruct (Ascii.eqb c "I" || Ascii.eqb c "S"); reflexivity.
Qed.

End ParseLevelFacts.

(** C4.  [ParseLevel] is a total function: on every string it returns the
    level of the name that the string matches without regard to case among
    "INFO", "WARN", "ERROR" and "DEBUG", and INFO when it matches none;
    the empty string and "FATAL" give INFO, and "info", "INFO" and "Info"
    give the same level. *)
Theorem ParseLevel_total_case_insensitive
    (mapUnicodeUpper : string -> string)
    (HU : Strings.unicodeUpperSpec mapUnicodeUpper) :
  (forall s, LevelParser.ParseLevel mapUnicodeUpper s = LevelParser.levelOfName s)
  /\ (forall s, Strings.eqFoldASCII s "INFO" = true ->
        LevelParser.ParseLevel mapUnicodeUpper s = SlogLevel.LevelInfo)
  /\ (forall s, Strings.eqFoldASCII s "WARN" = true ->
        LevelParser.ParseLevel mapUnicodeUpper s = SlogLevel.LevelWarn)
  /\ (forall s, Strings.eqFoldASCII s "ERROR" = true ->
        LevelParser.ParseLevel mapUnicodeUpper s = SlogLevel.LevelError)
  /\ (forall s, Strings.eqFoldASCII s "DEBUG" = true ->
        LevelParser.ParseLevel mapUnicodeUpper s = SlogLevel.LevelDebug)
  /\ (forall s, Strings.eqFoldASCII s "INFO" = false ->
        Strings.eqFoldASCII s "WARN" = false ->
        Strings.eqFoldASCII s "ERROR" = false ->
        Strings.eqFoldASCII s "DEBUG" = false ->
        LevelParser.ParseLevel mapUnicodeUpper s = SlogLevel.LevelInfo)
  /\ LevelParser.ParseLevel mapUnicodeUpper "" = SlogLevel.LevelInfo
  /\ LevelParser.ParseLevel mapUnicodeUpper "FATAL" = SlogLevel.LevelInfo
  /\ LevelParser.ParseLevel mapUnicodeUpper "info"
     = LevelParser.ParseLevel mapUnicodeUpper "INFO"
  /\ LevelParser.ParseLevel mapUnicodeUpper "INFO"
     = LevelParser.ParseLevel mapUnicodeUpper "Info".
Proof.
  assert (Hmain : forall s,
    LevelParser.ParseLevel mapUnicodeUpper s = LevelParser.levelOfName s).
  { intro s. unfold LevelParser.ParseLevel, LevelParser.levelOfName, Strings.ToUpper.
    destruct (Strings.allBytes Strings.isASCIIByte s) eqn:Hs; cbv zeta.
    - rewrite !mapBytes_upper_eqb by reflexivity. reflexivity.
    - rewrite !(eqFold_non_ascii s) by (assumption || reflexivity).
      specialize (HU s Hs).
      rewrite (anyByte_eqb_false _ _ "WARN" HU) by reflexivity.
      rewrite (anyByte_eqb_false _ _ "ERROR" HU) by reflexivity.
      rewrite (anyByte_eqb_false _ _ "DEBUG" HU) by reflexivity.
      destruct (String.eqb (mapUnicodeUpper s) "INFO"); reflexivity. }
  assert (Hname : forall s t, Strings.allBytes Strings.isUpper t = true ->
            Strings.eqFoldASCII s t = true ->
            Strings.mapBytes Strings.upperByte s = t).
  { intros s t Ht H. apply String.eqb_eq. rewrite mapBytes_upper_eqb; assumption. }
  split; [exact Hmain|].
  repeat split; try (intros s; rewrite Hmain; unfold LevelParser.levelOfName).
  - intros ->. reflexivity.
  - intros H. apply Hname in H; [|reflexivity].
    rewrite <- !mapBytes_upper_eqb by reflexivity. rewrite H. reflexivity.
  - intros H. apply Hname in H; [|reflexivity].
    rewrite <- !mapBytes_upper_eqb by reflexivity. rewrite H. reflexivity.
  - intros H. apply Hname in H; [|reflexivity].
    rewrite <- !mapBytes_upper_eqb by reflexivity. rewrite H. reflexivity.
  - intros -> -> -> ->. reflexivity.
Qed.

Lemma ParseLevel_total_case_insensitive_witness :
  Strings.unicodeUpperSpec (fun s => s)
  /\ LevelParser.ParseLevel (fun s => s) "wArN" = LevelParser.levelOfName "wArN".
Proof.
  split; [exact unicodeUpperSpec_id|].
  exact (proj1 (ParseLevel_total_case_insensitive (fun s => s) unicodeUpperSpec_id) "wArN").
Defined.


(** ** The context carrier *)

Section ContextFacts.
Import Context ContextCarrier.

Lemma Key_eqb_eq (a b : Key) : Key_eqb a b = true <-> a = b.
Proof.
  destruct a as [ta va], b as [tb vb]. unfold Key_eqb; simpl.
  rewrite andb_true_iff, !String.eqb_eq. split.
  - intros [-> ->]. reflexivity.
  - intros H. injection H as -> ->. split; reflexivity.
Qed.

Lemma Value_head (h : Heap) (p : Context) (k : Key) (v : CtxValue) :
  Value (fst (WithValue h p k v)) (snd (WithValue h p k v)) k = v.
Proof.
  simpl. rewrite Nat.eqb_refl.
  destruct (Key_eqb k k) eqn:E; [reflexivity|].
  assert (Key_eqb k k = true) by (apply Key_eqb_eq; reflexivity). congruence.
Qed.

(** A node allocated later is not on the chain of an older context. *)
Lemma Value_older (n : valueCtx) (h : Heap) (c : Context) (k : Key) :
  ctxValid h c -> Value (n :: h) c k = Value h c k.
Proof.
  destruct c as [|a]; simpl.
  - intros _. destruct h; reflexivity.
  - intros Ha. destruct (Nat.eqb_spec a (length h)); [lia|reflexivity].
Qed.

Lemma Value_no_key (h : Heap) (c : Context) (k : Key) :
  ~ In k (chainKeys h c) -> Value h c k = NilInterface.
Proof.
  revert c. induction h as [|n h IH]; intros c Hk; [reflexivity|].
  simpl in *. destruct c as [|a]; [reflexivity|].
  destruct (a =? length h)%nat.
  - simpl in Hk. destruct (Key_eqb (key n) k) eqn:E.
    + apply Key_eqb_eq in E. exfalso. apply Hk. left. exact E.
    + apply IH. intro Hin. apply Hk. right. exact Hin.
  - apply IH. exact Hk.
Qed.

End ContextFacts.

(** C6.  [FromContext] on the context derived by [WithLogger ctx L] returns
    the reference [L]; on a context whose chain holds no entry under the
    logger key it returns nil; and the derivation allocates one node in
    front of the existing ones, so every lookup on a context that existed
    before, the parent included, gives what it gave before. *)
Theorem WithLogger_FromContext_roundtrip
    (h : Context.Heap) (ctx : Context.Context) (L : Context.LoggerRef) :
  ContextCarrier.FromContext (fst (ContextCarrier.WithLogger h ctx L))
                             (snd (ContextCarrier.WithLogger h ctx L)) = L
  /\ (forall h0 c, ~ In ContextCarrier.LoggerKey (Context.chainKeys h0 c) ->
        ContextCarrier.FromContext h0 c = None)
  /\ (exists n, fst (ContextCarrier.WithLogger h ctx L) = n :: h
        /\ Context.parent n = ctx)
  /\ (forall c k, Context.ctxValid h c ->
        Context.Value (fst (ContextCarrier.WithLogger h ctx L)) c k
        = Context.Value h c k)
  /\ (Context.ctxValid h ctx ->
        ContextCarrier.FromContext (fst (ContextCarrier.WithLogger h ctx L)) ctx
        = ContextCarrier.FromContext h ctx).
Proof.
  split; [|split; [|split; [|split]]].
  - unfold ContextCarrier.FromContext, ContextCarrier.WithLogger.
    rewrite Value_head. reflexivity.
  - intros h0 c Hk. unfold ContextCarrier.FromContext.
    rewrite (Value_no_key h0 c _ Hk). reflexivity.
  - eexists. split; reflexivity.
  - intros c k Hc. apply Value_older. exact Hc.
  - intros Hc. unfold ContextCarrier.FromContext, ContextCarrier.WithLogger.
    simpl fst. rewrite Value_older by exact Hc. reflexivity.
Qed.

Lemma WithLogger_FromContext_roundtrip_witness :
  let h1 := fst (ContextCarrier.WithLogger [] Context.Background (Some 7%nat)) in
  let c1 := snd (ContextCarrier.WithLogger [] Context.Background (Some 7%nat)) in
  Context.ctxValid h1 c1
  /\ ContextCarrier.FromContext (fst (ContextCarrier.WithLogger h1 c1 (Some 9%nat))) c1
     = Some 7%nat
  /\ ContextCarrier.FromContext [] Context.Background = None.
Proof.
  cbv zeta. split; [simpl; lia|]. split.
  - rewrite (proj2 (proj2 (proj2 (proj2
      (WithLogger_FromContext_roundtrip
         (fst (ContextCarrier.WithLogger [] Context.Background (Some 7%nat)))
         (snd (ContextCarrier.WithLogger [] Context.Background (Some 7%nat)))
         (Some 9%nat)))))); [reflexivity | simpl; lia].
  - apply (proj1 (proj2 (WithLogger_FromContext_roundtrip [] Context.Background None))).
    simpl. tauto.
Defined.

(** C10.  Storing the nil [*Logger] and reading it back gives nil: the
    lookup finds the typed nil pointer, the type assertion accepts it, and
    the result is the one [FromContext] gives on any context without a
    logger entry, whatever logger the parent carried. *)
Theorem WithLogger_nil_is_absent (h : Context.Heap) (ctx : Context.Context) :
  Context.Value (fst (ContextCarrier.WithLogger h ctx None))
                (snd (ContextCarrier.WithLogger h ctx None))
                ContextCarrier.LoggerKey = Context.OfLogger None
  /\ ContextCarrier.FromContext (fst (ContextCarrier.WithLogger h ctx None))
                                (snd (ContextCarrier.WithLogger h ctx None)) = None
  /\ (forall h0 c, ~ In ContextCarrier.LoggerKey (Context.chainKeys h0 c) ->
        ContextCarrier.FromContext (fst (ContextCarrier.WithLogger h ctx None))
                                   (snd (ContextCarrier.WithLogger h ctx None))
        = ContextCarrier.FromContext h0 c).
Proof.
  assert (Hv : Context.Value (fst (ContextCarrier.WithLogger h ctx None))
                (snd (ContextCarrier.WithLogger h ctx None))
                ContextCarrier.LoggerKey = Context.OfLogger None)
    by apply Value_head.
  split; [exact Hv|]. unfold ContextCarrier.FromContext. rewrite Hv.
  split; [reflexivity|].
  intros h0 c Hk. rewrite (Value_no_key h0 c _ Hk). reflexivity.
Qed.

Lemma WithLogger_nil_is_absent_witness :
  ~ In ContextCarrier.LoggerKey (Context.chainKeys [] Context.Background)
  /\ ContextCarrier.FromContext
       (fst (ContextCarrier.WithLogger
               (fst (ContextCarrier.WithLogger [] Context.Background (Some 7%nat)))
               (snd (ContextCarrier.WithLogger [] Context.Background (Some 7%nat)))
               None))
       (snd (ContextCarrier.WithLogger
               (fst (ContextCarrier.WithLogger [] Context.Background (Some 7%nat)))
               (snd (ContextCarrier.WithLogger [] Context.Background (Some 7%nat)))
               None))
     = ContextCarrier.FromContext [] Context.Background.
Proof.
  assert (Hno : ~ In ContextCarrier.LoggerKey (Context.chainKeys [] Context.Background))
    by (simpl; tauto).
  split; [exact Hno|].
  exact (proj2 (proj2 (WithLogger_nil_is_absent _ _)) [] Context.Background Hno).
Defined.


(** ** Writers *)

Section WorldFacts.
Import Slog.

Lemma written_Write_eq (w : Writer) (e : Entry) (st : World) :
  written (Write w e st) w = written st w ++ [e].
Proof. unfold written, Write. rewrite lookup_insert_eq. reflexivity. Qed.

Lemma written_Write_ne (w w' : Writer) (e : Entry) (st : World) :
  w <> w' -> written (Write w e st) w' = written st w'.
Proof. intro H. unfold written, Write. rewrite lookup_insert_ne by exact H. reflexivity. Qed.

Lemma Write_changes (w : Writer) (e : Entry) (st : World) : Write w e st <> st.
Proof.
  intro H. apply (f_equal (fun s => length (written s w))) in H.
  rewrite written_Write_eq, length_app in H. simpl in H. lia.
Qed.

End WorldFacts.

(** ** What a logger with a built-in handler does on one call *)

Section LoggerFacts.
Import Context Observe.

Lemma SetHandler_actsAs Sprintf (out : Writer) (ht : HandlerType)
    (o : HandlerOptions) (l : Logger) :
  actsAs (minLevel o) out
    (fun c => formatEntry (formatOf ht) o
                (decorate (shouldPreficMessageWithLevel l) (callRecord Sprintf c)))
    Sprintf (SetHandler out ht (Some o) l).
Proof.
  intros ctx c st. unfold SetHandler, formatOf.
  destruct (ht =? HandlerTypeJSON), (shouldPreficMessageWithLevel l), c;
    reflexivity.
Qed.

Lemma New_actsAs Sprintf (out : Writer) (T : Level) (p : bool)
    (ht : HandlerType) (ho : option HandlerOptions) :
  actsAs (minLevel (default (levelOnly T) ho)) out
    (fun c => formatEntry (formatOf ht) (default (levelOnly T) ho)
                (decorate p (callRecord Sprintf c)))
    Sprintf (New out (Some (plainOptions T p ht ho))).
Proof.
  intros ctx c st. unfold New, plainOptions, formatOf. cbn [o_HandlerOptions
    o_CustomHandler o_HandlerType o_AddLevelPrefix o_Level].
  destruct ho as [o|], (ht =? HandlerTypeJSON), p, c; reflexivity.
Qed.

Lemma actsAs_filtersAt thr w f (l : Logger) :
  (forall Sprintf, actsAs thr w (f Sprintf) Sprintf l) -> filtersAt thr w l.
Proof.
  intros H Sprintf ctx c st. rewrite (H Sprintf ctx c st).
  destruct (Z.leb_spec thr (callLevel c)) as [Hle|Hlt]; split; split.
  - intros _. exact Hle.
  - intros _. eexists. reflexivity.
  - intro E. exfalso. exact (Write_changes _ _ _ E).
  - intro. lia.
  - intros [e E]. exfalso. symmetry in E. exact (Write_changes _ _ _ E).
  - intro. lia.
  - intros _. exact Hlt.
  - intros _. reflexivity.
Qed.

Lemma runCalls_actsAs thr w f Sprintf (l : Logger) (ctx : Context)
    (cs : list LogCall) :
  actsAs thr w f Sprintf l ->
  forall st,
    (forall w', w' <> w -> written (runCalls Sprintf l ctx cs st) w' = written st w')
    /\ written (runCalls Sprintf l ctx cs st) w
       = written st w ++ map f (List.filter (fun c => thr <=? callLevel c) cs).
Proof.
  intro H. unfold runCalls. induction cs as [|c cs IH]; intro st; simpl.
  - split; [reflexivity|]. rewrite app_nil_r. reflexivity.
  - destruct (IH (runCall Sprintf l ctx c st)) as [IH1 IH2].
    rewrite (H ctx c st) in IH1, IH2 |- *.
    destruct (thr <=? callLevel c); simpl.
    + split.
      * intros w' Hw. rewrite IH1 by exact Hw.
        apply written_Write_ne. congruence.
      * rewrite IH2, written_Write_eq, <- app_assoc. reflexivity.
    + split; assumption.
Qed.

Lemma builtinOn_Handle (w : Writer) (h : Handler) :
  builtinOn w h -> forall ctx r st, exists e, Handle h ctx r st = Write w e st.
Proof.
  induction 1 as [o|o|h Hh IH]; intros ctx r st.
  - eexists. reflexivity.
  - eexists. reflexivity.
  - simpl. apply IH.
Qed.

Lemma builtinOn_call (w : Writer) (l : Logger) :
  builtinOn w (handler (slogger l)) ->
  forall Sprintf ctx c st,
    runCall Sprintf l ctx c st = st \/ writesTo st (runCall Sprintf l ctx c st) w.
Proof.
  intros Hb Sprintf ctx c st.
  destruct c as [lvl msg args|lvl format args]; simpl;
    unfold Log, Logf, SlogLog;
    (destruct (Enabled (handler (slogger l)) ctx lvl); [right|left; reflexivity]);
    apply builtinOn_Handle; exact Hb.
Qed.

Lemma SetHandler_builtinOn (out : Writer) (ht : HandlerType)
    (opts : option HandlerOptions) (l : Logger) :
  builtinOn out (handler (slogger (SetHandler out ht opts l))).
Proof.
  unfold SetHandler. simpl.
  destruct (ht =? HandlerTypeJSON), (shouldPreficMessageWithLevel l);
    repeat constructor.
Qed.

Lemma New_builtinOn (out : Writer) (T : Level) (p : bool) (ht : HandlerType)
    (ho : option HandlerOptions) :
  builtinOn out (handler (slogger (New out (Some (plainOptions T p ht ho))))).
Proof.
  unfold New, plainOptions. simpl.
  destruct (ht =? HandlerTypeJSON), p; repeat constructor.
Qed.

End LoggerFacts.

(** ** Threshold, destination and decoration *)

Section LoggerClaims.
Import Context Observe.

(** C1, as the code has it.  A leveled call at severity S writes one record
    to the destination exactly when S is at least the minimum level of the
    handler in use: INFO for a Logger from [New] without options;
    [Options.Level] when the options hold neither a custom handler nor
    [HandlerOptions]; the level of the caller's [HandlerOptions] (INFO when
    that names none) when they are supplied without a custom handler,
    whatever [Options.Level] says; and T after [SetLevel T], which also
    makes T the Logger's level.  A call below that level leaves every
    writer as it was.  With a custom handler in the options, a call is
    handed to that handler exactly when the handler is enabled for S,
    whatever [Options.Level] and [HandlerOptions] say; for a built-in
    handler passed as the custom one, that is its own minimum level. *)
Theorem threshold_filter_of_handler
    (out w : Writer) (T : Level) (p : bool) (ht : HandlerType)
    (ho o : HandlerOptions) (oho : option HandlerOptions)
    (custom : Handler) (l : Logger) :
  filtersAt LevelInfo out (New out None)
  /\ filtersAt T out (New out (Some (plainOptions T p ht None)))
  /\ filtersAt (minLevel ho) out (New out (Some (plainOptions T p ht (Some ho))))
  /\ GetLevel (New out (Some (plainOptions T p ht (Some ho)))) = T
  /\ GetLevel (SetLevel T l) = T
  /\ filtersAt T (writerType l) (SetLevel T l)
  /\ (forall Sprintf ctx c st,
        runCall Sprintf
          (New out (Some {| o_Level := T; o_AddLevelPrefix := p;
                            o_HandlerType := ht; o_CustomHandler := Some custom;
                            o_HandlerOptions := oho |})) ctx c st
        = (if Enabled custom ctx (callLevel c)
           then Handle custom ctx (decorate p (callRecord Sprintf c)) st
           else st))
  /\ filtersAt (minLevel o) w
       (New out (Some {| o_Level := T; o_AddLevelPrefix := p;
                         o_HandlerType := ht;
                         o_CustomHandler := Some (NewTextHandler w o);
                         o_HandlerOptions := oho |}))
  /\ filtersAt (minLevel o) w
       (New out (Some {| o_Level := T; o_AddLevelPrefix := p;
                         o_HandlerType := ht;
                         o_CustomHandler := Some (NewJSONHandler w o);
                         o_HandlerOptions := oho |}))
  /\ GetLevel (New out (Some {| o_Level := T; o_AddLevelPrefix := p;
                                o_HandlerType := ht;
                                o_CustomHandler := Some custom;
                                o_HandlerOptions := oho |})) = T.
Proof.
  split; [|split; [|split; [|split; [|split; [|split; [|split; [|split; [|split]]]]]]]].
  - apply (actsAs_filtersAt _ _ _ _
             (fun Sprintf => New_actsAs Sprintf out LevelInfo false HandlerTypeText
                               (o_HandlerOptions DefaultOptions))).
  - apply (actsAs_filtersAt _ _ _ _
             (fun Sprintf => New_actsAs Sprintf out T p ht None)).
  - apply (actsAs_filtersAt _ _ _ _
             (fun Sprintf => New_actsAs Sprintf out T p ht (Some ho))).
  - reflexivity.
  - reflexivity.
  - apply (actsAs_filtersAt T (writerType l)
             (fun Sprintf c => formatEntry (formatOf (handlerType l)) (levelOnly T)
                (decorate (shouldPreficMessageWithLevel l) (callRecord Sprintf c)))).
    intro Sprintf. unfold SetLevel.
    exact (SetHandler_actsAs Sprintf (writerType l) (handlerType l) (levelOnly T)
             {| level := T;
                shouldPreficMessageWithLevel := shouldPreficMessageWithLevel l;
                handlerType := handlerType l;
                writerType := writerType l;
                slogger := slogger l |}).
  - intros Sprintf ctx c st. unfold New. destruct p, c; reflexivity.
  - apply (actsAs_filtersAt (minLevel o) w
             (fun Sprintf c => formatEntry FormatText o
                (decorate p (callRecord Sprintf c)))).
    intros Sprintf ctx c st. unfold New. destruct p, c; reflexivity.
  - apply (actsAs_filtersAt (minLevel o) w
             (fun Sprintf c => formatEntry FormatJSON o
                (decorate p (callRecord Sprintf c)))).
    intros Sprintf ctx c st. unfold New. destruct p, c; reflexivity.
  - reflexivity.
Qed.

(** C1 as stated fails, in two ways.  With [Options.Level] DEBUG and
    caller-supplied [HandlerOptions] that only switch on [AddSource], the
    Logger reports level DEBUG, yet a Debug call writes nothing.  With
    [Options.Level] ERROR and a custom text handler of level DEBUG, the
    Logger reports level ERROR, yet a Debug call is written. *)
Lemma threshold_filter_counterexample :
  (let l := New 1%nat
              (Some (plainOptions LevelDebug false HandlerTypeText
                       (Some {| ho_AddSource := true; ho_Level := None;
                                ho_ReplaceAttr := None |}))) in
   GetLevel l = LevelDebug
   /\ Debug l Background "m" [] ∅ = ∅
   /\ ~ filtersAt (GetLevel l) 1%nat l)
  /\ (let l := New 1%nat
                 (Some {| o_Level := LevelError; o_AddLevelPrefix := false;
                          o_HandlerType := HandlerTypeText;
                          o_CustomHandler :=
                            Some (NewTextHandler 1%nat (levelOnly LevelDebug));
                          o_HandlerOptions := None |}) in
      GetLevel l = LevelError
      /\ Debug l Background "m" [] ∅
         = Write 1%nat
             (formatEntry FormatText (levelOnly LevelDebug)
                {| r_Level := LevelDebug; r_Message := "m"; r_Attrs := [] |}) ∅
      /\ ~ filtersAt (GetLevel l) 1%nat l).
Proof.
  split; cbv zeta.
  - split; [reflexivity|]. split; [reflexivity|].
    intro H.
    destruct (H (fun f _ => f) Background (CallLog LevelDebug "m" []) ∅) as [[_ Hw] _].
    destruct Hw as [e He]; [simpl; unfold LevelDebug; lia|].
    symmetry in He. exact (Write_changes _ _ _ He).
  - split; [reflexivity|]. split; [reflexivity|].
    intro H.
    destruct (H (fun f _ => f) Background (CallLog LevelDebug "m" []) ∅) as [[Hw _] _].
    assert (Hlt : LevelError <= LevelDebug).
    { apply Hw. eexists. reflexivity. }
    unfold LevelError, LevelDebug in Hlt. lia.
Qed.

(** C2, on the code.  [SetOutput] leaves [writerType] as [New] set it, and
    [SetLevel] rebuilds the handler on [writerType]: a [SetLevel] after
    [SetOutput B] undoes the redirection.  On a Logger made on writer 1,
    sent to writer 2 and then given level INFO, an Info call lands in
    writer 1 and writer 2 stays empty; without the [SetLevel] it lands in
    writer 2. *)
Theorem SetLevel_after_SetOutput_restores_first_writer :
  (forall (l : Logger) (B : Writer), writerType (SetOutput B l) = writerType l)
  /\ (forall (l : Logger) (B : Writer) (T : Level),
        SetLevel T (SetOutput B l) = SetLevel T l)
  /\ (let l := SetOutput 2%nat (New 1%nat None) in
      written (Info l Background "x" [] ∅) 2%nat
      = [formatEntry FormatText (levelOnly LevelInfo)
           {| r_Level := LevelInfo; r_Message := "x"; r_Attrs := [] |}]
      /\ written (Info l Background "x" [] ∅) 1%nat = [])
  /\ (let l := SetLevel LevelInfo (SetOutput 2%nat (New 1%nat None)) in
      written (Info l Background "x" [] ∅) 1%nat
      = [formatEntry FormatText (levelOnly LevelInfo)
           {| r_Level := LevelInfo; r_Message := "x"; r_Attrs := [] |}]
      /\ written (Info l Background "x" [] ∅) 2%nat = []).
Proof.
  split; [reflexivity|]. split; [reflexivity|].
  split; cbv zeta; split; vm_compute; reflexivity.
Qed.



(** C5.  The level-prefix handler hands on the record with the message
    replaced by "- " + [r.Level.String()] + " - " + the message, the level
    and the attributes being those it received.  A Logger whose prefix flag
    is set, whether from [New], [SetOutput], [SetLevel] or
    [SetCustomHandler], therefore logs as the one without the flag does on
    the rewritten message, at every level.  The names are DEBUG, INFO,
    WARN and ERROR, and ERROR+4 for the level of Fatal. *)
Theorem level_prefix_rewrites_message_only
    (Sprintf : string -> list Any -> string) (h : Handler) (r : LogRecord)
    (out B : Writer) (o : Options) (l : Logger) (T S : Level)
    (ctx : Context) (msg : string) (args : list Any) (st : World) :
  Handle (levelPrefixHandler h) ctx r st
  = Handle h ctx
      {| r_Level := r_Level r;
         r_Message := "- " +:+ LevelString (r_Level r) +:+ " - " +:+ r_Message r;
         r_Attrs := r_Attrs r |} st
  /\ Enabled (levelPrefixHandler h) = Enabled h
  /\ Log (New out (Some (withPrefix true o))) ctx S msg args st
     = Log (New out (Some (withPrefix false o))) ctx S (prefixed S msg) args st
  /\ Logf Sprintf (New out (Some (withPrefix true o))) ctx S msg args st
     = Log (New out (Some (withPrefix false o))) ctx S
         (prefixed S (Sprintf msg args)) [] st
  /\ Log (SetOutput B (withFlag true l)) ctx S msg args st
     = Log (SetOutput B (withFlag false l)) ctx S (prefixed S msg) args st
  /\ Log (SetLevel T (withFlag true l)) ctx S msg args st
     = Log (SetLevel T (withFlag false l)) ctx S (prefixed S msg) args st
  /\ Log (SetCustomHandler h (withFlag true l)) ctx S msg args st
     = Log (SetCustomHandler h (withFlag false l)) ctx S (prefixed S msg) args st
  /\ prefixed LevelDebug msg = "- DEBUG - " +:+ msg
  /\ prefixed LevelInfo msg = "- INFO - " +:+ msg
  /\ prefixed LevelWarn msg = "- WARN - " +:+ msg
  /\ prefixed LevelError msg = "- ERROR - " +:+ msg
  /\ prefixed (LevelError + 4) msg = "- ERROR+4 - " +:+ msg
  /\ written (Fatal (New out (Some (plainOptions LevelDebug true HandlerTypeText None)))
                Background msg args ∅) out
     = [formatEntry FormatText (levelOnly LevelDebug)
          {| r_Level := 12; r_Message := "- ERROR+4 - " +:+ msg;
             r_Attrs := argsToAttrs args |}].
Proof.
  split; [reflexivity|]. split; [reflexivity|].
  split; [reflexivity|]. split; [reflexivity|].
  split; [unfold SetOutput, SetHandler, withFlag; simpl;
          destruct (handlerType l =? HandlerTypeJSON); reflexivity|].
  split; [unfold SetLevel, SetHandler, withFlag; simpl;
          destruct (handlerType l =? HandlerTypeJSON); reflexivity|].
  split; [reflexivity|].
  split; [reflexivity|]. split; [reflexivity|]. split; [reflexivity|].
  split; [reflexivity|]. split; [reflexivity|].
  unfold Fatal. pose proof (New_actsAs Sprintf out LevelDebug true HandlerTypeText None
                              Background (CallLog (LevelError + 4) msg args) ∅) as E.
  simpl in E. rewrite E. rewrite written_Write_eq. reflexivity.
Qed.

(** C7, on the code.  In the revision that calls [fmt.Sprintf], [Logf] and
    the f-suffixed methods log the rendered text with no attributes.  In
    the other revision [Logf] passes format and arguments on to slog: the
    record carries the format unrendered and the arguments as attributes;
    [Infof(ctx, "this is info %d", 1)] on a default Logger writes the
    message "- INFO - this is info %d" with the attribute !BADKEY=1. *)
Theorem Logf_renders_message_without_attributes
    (Sprintf : string -> list Any -> string) (l : Logger) (out : Writer)
    (T S : Level) (p : bool) (ht : HandlerType) (ho : option HandlerOptions)
    (ctx : Context) (format : string) (args : list Any) (st : World) :
  Logf Sprintf l ctx S format args st = Log l ctx S (Sprintf format args) [] st
  /\ Debugf Sprintf l ctx format args st = Debug l ctx (Sprintf format args) [] st
  /\ Infof Sprintf l ctx format args st = Info l ctx (Sprintf format args) [] st
  /\ Warnf Sprintf l ctx format args st = Warn l ctx (Sprintf format args) [] st
  /\ Errorf Sprintf l ctx format args st = Error l ctx (Sprintf format args) [] st
  /\ Fatalf Sprintf l ctx format args st = Fatal l ctx (Sprintf format args) [] st
  /\ Logf Sprintf (New out (Some (plainOptions T p ht ho))) ctx S format args st
     = (if minLevel (default (levelOnly T) ho) <=? S
        then Write out
               (formatEntry (formatOf ht) (default (levelOnly T) ho)
                  (decorate p {| r_Level := S; r_Message := Sprintf format args;
                                 r_Attrs := [] |})) st
        else st)
  /\ SlogrPrev.Logf l ctx S format args st
     = SlogLog (slogger l) ctx S format args st
  /\ written (SlogrPrev.Infof (SlogrPrev.New out None) Background
                "this is info %d" [AInt 1] ∅) out
     = [formatEntry FormatText
          {| ho_AddSource := false; ho_Level := Some LevelInfo;
             ho_ReplaceAttr := Some (fun _ a => a) |}
          {| r_Level := LevelInfo; r_Message := "- INFO - this is info %d";
             r_Attrs := [("!BADKEY", AInt 1)] |}].
Proof.
  repeat (split; [reflexivity|]).
  split; [exact (New_actsAs Sprintf out T p ht ho ctx (CallLogf S format args) st)|].
  split; [reflexivity|].
  unfold SlogrPrev.Infof, SlogrPrev.Logf, SlogLog. simpl.
  rewrite written_Write_eq. reflexivity.
Qed.

(** C8.  [Fatal] and [Fatalf] are [Log] and [Logf] at ERROR + 4, a level
    above ERROR.  On a Logger whose handler is a built-in one on writer
    [w], a call returns with the writers as they were or with one more line
    in [w], as every leveled call does; the Loggers that [New] builds
    without a custom handler and those that [SetOutput] and [SetLevel]
    leave are of this kind.  On the Logger [New] makes without options the
    call writes one record whose level is ERROR + 4; on one made from
    options, or after [SetLevel] or [SetOutput], it writes that record
    exactly when the minimum level is at most ERROR + 4, which every
    threshold up to ERROR is. *)
Theorem Fatal_is_a_level_above_error
    (Sprintf : string -> list Any -> string) (l : Logger) (out B : Writer)
    (T : Level) (p : bool) (ht : HandlerType) (ho : option HandlerOptions)
    (ctx : Context) (msg format : string) (args : list Any) (st : World) :
  LevelError < LevelError + 4
  /\ Fatal l ctx msg args st = Log l ctx (LevelError + 4) msg args st
  /\ Fatalf Sprintf l ctx format args st
     = Logf Sprintf l ctx (LevelError + 4) format args st
  /\ (forall w, builtinOn w (handler (slogger l)) ->
        (Fatal l ctx msg args st = st \/ writesTo st (Fatal l ctx msg args st) w)
        /\ (Fatalf Sprintf l ctx format args st = st
            \/ writesTo st (Fatalf Sprintf l ctx format args st) w)
        /\ (forall c, runCall Sprintf l ctx c st = st
                      \/ writesTo st (runCall Sprintf l ctx c st) w))
  /\ builtinOn out (handler (slogger (New out None)))
  /\ builtinOn out (handler (slogger (New out (Some (plainOptions T p ht ho)))))
  /\ builtinOn B (handler (slogger (SetOutput B l)))
  /\ builtinOn (writerType l) (handler (slogger (SetLevel T l)))
  /\ Fatal (New out None) ctx msg args st
     = Write out
         (formatEntry FormatText
            {| ho_AddSource := false; ho_Level := Some LevelInfo;
               ho_ReplaceAttr := Some (fun _ a => a) |}
            {| r_Level := LevelError + 4; r_Message := msg;
               r_Attrs := argsToAttrs args |}) st
  /\ Fatalf Sprintf (New out None) ctx format args st
     = Write out
         (formatEntry FormatText
            {| ho_AddSource := false; ho_Level := Some LevelInfo;
               ho_ReplaceAttr := Some (fun _ a => a) |}
            {| r_Level := LevelError + 4; r_Message := Sprintf format args;
               r_Attrs := [] |}) st
  /\ Fatal (New out (Some (plainOptions T p ht ho))) ctx msg args st
     = (if minLevel (default (levelOnly T) ho) <=? LevelError + 4
        then Write out
               (formatEntry (formatOf ht) (default (levelOnly T) ho)
                  (decorate p {| r_Level := LevelError + 4; r_Message := msg;
                                 r_Attrs := argsToAttrs args |})) st
        else st)
  /\ Fatalf Sprintf (New out (Some (plainOptions T p ht ho))) ctx format args st
     = (if minLevel (default (levelOnly T) ho) <=? LevelError + 4
        then Write out
               (formatEntry (formatOf ht) (default (levelOnly T) ho)
                  (decorate p {| r_Level := LevelError + 4;
                                 r_Message := Sprintf format args;
                                 r_Attrs := [] |})) st
        else st)
  /\ Fatal (SetLevel T l) ctx msg args st
     = (if T <=? LevelError + 4
        then Write (writerType l)
               (formatEntry (formatOf (handlerType l)) (levelOnly T)
                  (decorate (shouldPreficMessageWithLevel l)
                     {| r_Level := LevelError + 4; r_Message := msg;
                        r_Attrs := argsToAttrs args |})) st
        else st)
  /\ Fatalf Sprintf (SetOutput B l) ctx format args st
     = (if level l <=? LevelError + 4
        then Write B
               (formatEntry (formatOf (handlerType l)) (levelOnly (level l))
                  (decorate (shouldPreficMessageWithLevel l)
                     {| r_Level := LevelError + 4;
                        r_Message := Sprintf format args; r_Attrs := [] |})) st
        else st)
  /\ (T <= LevelError ->
      writesTo st (Fatal (SetLevel T l) ctx msg args st) (writerType l)
      /\ writesTo st (Fatalf Sprintf (SetLevel T l) ctx format args st) (writerType l)
      /\ Fatal (SetLevel T l) ctx msg args st <> st
      /\ Fatalf Sprintf (SetLevel T l) ctx format args st <> st).
Proof.
  split; [unfold LevelError; lia|]. split; [reflexivity|]. split; [reflexivity|].
  split.
  { intros w Hb.
    split; [exact (builtinOn_call w l Hb Sprintf ctx (CallLog (LevelError + 4) msg args) st)|].
    split; [exact (builtinOn_call w l Hb Sprintf ctx (CallLogf (LevelError + 4) format args) st)|].
    intro c. exact (builtinOn_call w l Hb Sprintf ctx c st). }
  split; [apply builtin_text|].
  split; [apply New_builtinOn|].
  split; [apply SetHandler_builtinOn|].
  split; [unfold SetLevel; apply SetHandler_builtinOn|].
  split; [reflexivity|]. split; [reflexivity|].
  split; [exact (New_actsAs Sprintf out T p ht ho ctx
                   (CallLog (LevelError + 4) msg args) st)|].
  split; [exact (New_actsAs Sprintf out T p ht ho ctx
                   (CallLogf (LevelError + 4) format args) st)|].
  assert (HL : forall c, runCall Sprintf (SetLevel T l) ctx c st
             = if T <=? callLevel c
               then Write (writerType l)
                      (formatEntry (formatOf (handlerType l)) (levelOnly T)
                         (decorate (shouldPreficMessageWithLevel l)
                            (callRecord Sprintf c))) st
               else st).
  { intro c.
    exact (SetHandler_actsAs Sprintf (writerType l) (handlerType l) (levelOnly T)
             {| level := T;
                shouldPreficMessageWithLevel := shouldPreficMessageWithLevel l;
                handlerType := handlerType l;
                writerType := writerType l;
                slogger := slogger l |} ctx c st). }
  split; [exact (HL (CallLog (LevelError + 4) msg args))|].
  split; [exact (SetHandler_actsAs Sprintf B (handlerType l) (levelOnly (level l)) l
                   ctx (CallLogf (LevelError + 4) format args) st)|].
  intro HT.
  pose proof (HL (CallLog (LevelError + 4) msg args)) as H1.
  pose proof (HL (CallLogf (LevelError + 4) format args)) as H2.
  simpl in H1, H2.
  assert (E : (T <=? LevelError + 4) = true)
    by (apply Z.leb_le; unfold LevelError in *; lia).
  rewrite E in H1, H2.
  unfold Fatal, Fatalf. rewrite H1, H2.
  repeat split; first [eexists; reflexivity | apply Write_changes].
Qed.

Lemma Fatal_is_a_level_above_error_witness :
  builtinOn 1%nat (handler (slogger (New 1%nat None)))
  /\ (Fatal (New 1%nat None) Background "boom" [] ∅ = ∅
      \/ writesTo ∅ (Fatal (New 1%nat None) Background "boom" [] ∅) 1%nat).
Proof.
  assert (Hb : builtinOn 1%nat (handler (slogger (New 1%nat None))))
    by apply builtin_text.
  split; [exact Hb|].
  exact (proj1 (proj1 (proj2 (proj2 (proj2
    (Fatal_is_a_level_above_error (fun f _ => f) (New 1%nat None) 1%nat 1%nat
       LevelInfo false HandlerTypeText None Background "boom" "boom" [] ∅))))
    1%nat Hb)).
Defined.


End LoggerClaims.

(** ** Further properties of the logger *)

Section ReconfigureFacts.
Import Context Reconfigure.

Lemma builtinOn_shape (w : Writer) (h : Handler) :
  builtinOn w h ->
  exists thr g,
    (forall ctx lvl, Enabled h ctx lvl = (thr <=? lvl))
    /\ (forall ctx r st, Handle h ctx r st = Write w (g r) st).
Proof.
  induction 1 as [o|o|h Hh (thr & g & He & Hg)].
  - exists (minLevel o), (formatEntry FormatJSON o). split; reflexivity.
  - exists (minLevel o), (formatEntry FormatText o). split; reflexivity.
  - exists thr, (fun r => g (decorate true r)). split.
    + exact He.
    + intros ctx r st. simpl. apply Hg.
Qed.

Lemma builtinOn_actsAs (w : Writer) (l : Logger) Sprintf :
  builtinOn w (handler (slogger l)) ->
  exists thr f, actsAs thr w f Sprintf l.
Proof.
  intros Hb. destruct (builtinOn_shape w _ Hb) as (thr & g & He & Hg).
  exists thr, (fun c => g (callRecord Sprintf c)).
  intros ctx c st. destruct c as [lvl msg args|lvl format args]; simpl;
    unfold Log, Logf, SlogLog; rewrite He; destruct (thr <=? lvl);
    first [apply Hg | reflexivity].
Qed.

Lemma SetCustomHandler_actsAs Sprintf (w : Writer) (fmt : Format)
    (o : HandlerOptions) (l : Logger) :
  actsAs (minLevel o) w
    (fun c => formatEntry fmt o
                (decorate (shouldPreficMessageWithLevel l) (callRecord Sprintf c)))
    Sprintf
    (SetCustomHandler
       (match fmt with
        | FormatJSON => NewJSONHandler w o
        | FormatText => NewTextHandler w o
        end) l).
Proof.
  intros ctx c st. unfold SetCustomHandler.
  destruct fmt, (shouldPreficMessageWithLevel l), c; reflexivity.
Qed.

Lemma argsToAttrs_keyValueArgs (kvs : list (string * Any)) (rest : list Any) :
  argsToAttrs (keyValueArgs kvs ++ rest) = kvs ++ argsToAttrs rest.
Proof.
  induction kvs as [|[k v] kvs IH]; [reflexivity|].
  unfold keyValueArgs in *. simpl. rewrite IH. reflexivity.
Qed.

Lemma mutate_fields (m : Mutator) (l : Logger) :
  writerType (mutate m l) = writerType l
  /\ handlerType (mutate m l) = handlerType l
  /\ shouldPreficMessageWithLevel (mutate m l) = shouldPreficMessageWithLevel l
  /\ level (mutate m l) = match m with MSetLevel lvl => lvl | _ => level l end.
Proof. destruct m; repeat split; reflexivity. Qed.

(** Two Loggers that agree on level, handler type and writer, one with
    the prefix flag and one without, still do so after the same call, and
    the handler of the first is then the level-prefix handler around the
    handler of the second. *)
Lemma mutate_twin (m : Mutator) (l l' : Logger) :
  level l = level l' -> handlerType l = handlerType l' ->
  writerType l = writerType l' ->
  shouldPreficMessageWithLevel l = true ->
  shouldPreficMessageWithLevel l' = false ->
  level (mutate m l) = level (mutate m l')
  /\ handlerType (mutate m l) = handlerType (mutate m l')
  /\ writerType (mutate m l) = writerType (mutate m l')
  /\ shouldPreficMessageWithLevel (mutate m l) = true
  /\ shouldPreficMessageWithLevel (mutate m l') = false
  /\ handler (slogger (mutate m l))
     = levelPrefixHandler (handler (slogger (mutate m l'))).
Proof.
  destruct l as [lv pf ht wt sl], l' as [lv' pf' ht' wt' sl']; simpl.
  intros -> -> -> -> ->.
  destruct m as [out t opts|out|lvl|h]; simpl;
    unfold SetHandler, SetOutput, SetLevel, SetCustomHandler; simpl.
  - destruct opts, (t =? HandlerTypeJSON); repeat split; reflexivity.
  - destruct (ht' =? HandlerTypeJSON); repeat split; reflexivity.
  - destruct (ht' =? HandlerTypeJSON); repeat split; reflexivity.
  - repeat split; reflexivity.
Qed.

Lemma mutateAll_keeps_fields (ms : list Mutator) (l : Logger) :
  writerType (mutateAll ms l) = writerType l
  /\ handlerType (mutateAll ms l) = handlerType l
  /\ shouldPreficMessageWithLevel (mutateAll ms l) = shouldPreficMessageWithLevel l.
Proof.
  revert l. induction ms as [|m ms IH]; intro l; [repeat split; reflexivity|].
  unfold mutateAll in *. simpl.
  destruct (IH (mutate m l)) as (H1 & H2 & H3).
  destruct (mutate_fields m l) as (F1 & F2 & F3 & _).
  rewrite H1, H2, H3, F1, F2, F3. repeat split; reflexivity.
Qed.

End ReconfigureFacts.

Section ExtraLogger.
Import Context Reconfigure.

(** X1.  After [SetLevel T], a sequence of leveled calls adds to the
    writer the Logger was created on exactly one line per call whose level
    is at least T, in call order, and changes no other writer. *)
Theorem SetLevel_then_calls
    (Sprintf : string -> list Any -> string) (l : Logger) (T : Level)
    (ctx : Context) (cs : list LogCall) (st : World) :
  (forall A, A <> writerType l ->
     written (runCalls Sprintf (SetLevel T l) ctx cs st) A = written st A)
  /\ written (runCalls Sprintf (SetLevel T l) ctx cs st) (writerType l)
     = written st (writerType l) ++ emitted Sprintf (SetLevel T l) cs
  /\ length (written (runCalls Sprintf (SetLevel T l) ctx cs st) (writerType l))
     = (length (written st (writerType l))
        + length (List.filter (fun c => (T <=? callLevel c)%Z) cs))%nat.
Proof.
  pose proof (runCalls_actsAs T (writerType l)
    (fun c => formatEntry (formatOf (handlerType l)) (levelOnly T)
       (decorate (shouldPreficMessageWithLevel l) (callRecord Sprintf c)))
    Sprintf (SetLevel T l) ctx cs) as H.
  destruct (H (SetHandler_actsAs Sprintf (writerType l) (handlerType l) (levelOnly T)
                 {| level := T;
                    shouldPreficMessageWithLevel := shouldPreficMessageWithLevel l;
                    handlerType := handlerType l;
                    writerType := writerType l;
                    slogger := slogger l |}) st) as [H1 H2].
  split; [exact H1|]. split; [exact H2|].
  rewrite H2, length_app, length_map. reflexivity.
Qed.

Lemma SetLevel_then_calls_witness :
  2%nat <> writerType (New 1%nat None)
  /\ written (runCalls (fun f _ => f) (SetLevel LevelError (New 1%nat None)) Background
                [CallLog LevelInfo "this is info" []; CallLog LevelError "this is error" []]
                ∅) 2%nat
     = written ∅ 2%nat.
Proof.
  split; [simpl; lia|].
  apply (proj1 (SetLevel_then_calls (fun f _ => f) (New 1%nat None) LevelError
                  Background
                  [CallLog LevelInfo "this is info" []; CallLog LevelError "this is error" []]
                  ∅)).
  simpl. lia.
Defined.

(** X2.  [SetOutput] and [SetLevel] rebuild the handler from the Logger's
    stored fields only, so whatever an earlier [SetOutput], [SetHandler] or
    [SetCustomHandler] installed is gone after them, and of two [SetLevel]
    calls the later one decides. *)
Theorem later_SetOutput_or_SetLevel_discards_handler
    (l : Logger) (B B' out : Writer) (T T' : Level) (ht : HandlerType)
    (opts : option HandlerOptions) (h : Handler) :
  SetOutput B' (SetOutput B l) = SetOutput B' l
  /\ SetLevel T' (SetLevel T l) = SetLevel T' l
  /\ SetOutput B (SetHandler out ht opts l) = SetOutput B l
  /\ SetLevel T (SetHandler out ht opts l) = SetLevel T l
  /\ SetOutput B (SetCustomHandler h l) = SetOutput B l
  /\ SetLevel T (SetCustomHandler h l) = SetLevel T l.
Proof. repeat split; reflexivity. Qed.

(** X3.  [SetLevel T] followed by [SetOutput B] gives a Logger of level T
    that writes to B the calls at or above T; in the other order the calls
    at or above T go to the writer the Logger was created on. *)
Theorem SetLevel_then_SetOutput_filters_on_new_writer
    (l : Logger) (B : Writer) (T : Level) :
  GetLevel (SetOutput B (SetLevel T l)) = T
  /\ filtersAt T B (SetOutput B (SetLevel T l))
  /\ GetLevel (SetLevel T (SetOutput B l)) = T
  /\ filtersAt T (writerType l) (SetLevel T (SetOutput B l)).
Proof.
  split; [reflexivity|]. split.
  { apply (actsAs_filtersAt T B
             (fun Sprintf c => formatEntry (formatOf (handlerType l)) (levelOnly T)
                (decorate (shouldPreficMessageWithLevel l) (callRecord Sprintf c)))).
    intro Sprintf.
    exact (SetHandler_actsAs Sprintf B (handlerType l) (levelOnly T) (SetLevel T l)). }
  split; [reflexivity|].
  apply (actsAs_filtersAt T (writerType l)
           (fun Sprintf c => formatEntry (formatOf (handlerType l)) (levelOnly T)
              (decorate (shouldPreficMessageWithLevel l) (callRecord Sprintf c)))).
  intro Sprintf.
  exact (SetHandler_actsAs Sprintf (writerType l) (handlerType l) (levelOnly T)
           {| level := T;
              shouldPreficMessageWithLevel := shouldPreficMessageWithLevel l;
              handlerType := handlerType l;
              writerType := writerType l;
              slogger := slogger l |}).
Qed.

(** X4.  Whatever sequence of [SetHandler], [SetOutput], [SetLevel] and
    [SetCustomHandler] calls follows [New], the Logger keeps the writer,
    handler type and prefix flag that [New] stored, and its level is that
    of the last [SetLevel] (that of [New] when there was none).  When the
    options ask for the prefix, the handler after the sequence is the
    level-prefix handler around the handler that the same options without
    the prefix lead to after the same sequence, so every call logs what the
    undecorated Logger logs for the message "- LEVEL - message". *)
Theorem reconfiguration_invariant
    (Sprintf : string -> list Any -> string)
    (out : Writer) (opts : option Options) (o : Options) (ms : list Mutator)
    (ctx : Context) (S : Level) (msg format : string) (args : list Any)
    (st : World) :
  writerType (mutateAll ms (New out opts)) = out
  /\ GetHandlerType (mutateAll ms (New out opts)) = GetHandlerType (New out opts)
  /\ shouldPreficMessageWithLevel (mutateAll ms (New out opts))
     = shouldPreficMessageWithLevel (New out opts)
  /\ GetLevel (mutateAll ms (New out opts)) = lastLevel ms (GetLevel (New out opts))
  /\ handler (slogger (mutateAll ms (New out (Some (withPrefix true o)))))
     = levelPrefixHandler
         (handler (slogger (mutateAll ms (New out (Some (withPrefix false o))))))
  /\ Log (mutateAll ms (New out (Some (withPrefix true o)))) ctx S msg args st
     = Log (mutateAll ms (New out (Some (withPrefix false o)))) ctx S
         (prefixed S msg) args st
  /\ Logf Sprintf (mutateAll ms (New out (Some (withPrefix true o)))) ctx S
          format args st
     = Log (mutateAll ms (New out (Some (withPrefix false o)))) ctx S
         (prefixed S (Sprintf format args)) [] st.
Proof.
  assert (Hlvl : forall ms l, level (mutateAll ms l) = lastLevel ms (level l)).
  { clear. induction ms as [|m ms IH]; intro l; [reflexivity|].
    unfold mutateAll, lastLevel in *. simpl. rewrite IH.
    destruct (mutate_fields m l) as (_ & _ & _ & F4). rewrite F4.
    destruct m; reflexivity. }
  assert (Htwin : forall ms l l',
    level l = level l' -> handlerType l = handlerType l' ->
    writerType l = writerType l' ->
    shouldPreficMessageWithLevel l = true ->
    shouldPreficMessageWithLevel l' = false ->
    handler (slogger l) = levelPrefixHandler (handler (slogger l')) ->
    handler (slogger (mutateAll ms l))
    = levelPrefixHandler (handler (slogger (mutateAll ms l')))).
  { clear. induction ms as [|m ms IH]; intros l l' H1 H2 H3 H4 H5 H6; [exact H6|].
    unfold mutateAll in *. simpl.
    destruct (mutate_twin m l l' H1 H2 H3 H4 H5) as (G1 & G2 & G3 & G4 & G5 & G6).
    apply IH; assumption. }
  assert (Hh : handler (slogger (mutateAll ms (New out (Some (withPrefix true o)))))
               = levelPrefixHandler
                   (handler (slogger (mutateAll ms (New out (Some (withPrefix false o))))))).
  { apply Htwin; reflexivity. }
  destruct (mutateAll_keeps_fields ms (New out opts)) as (H1 & H2 & H3).
  split; [rewrite H1; destruct opts; reflexivity|].
  split; [exact H2|]. split; [exact H3|]. split; [apply Hlvl|].
  split; [exact Hh|].
  unfold Log, Logf, SlogLog. rewrite Hh. split; reflexivity.
Qed.

(** X5.  [SetCustomHandler] leaves the Logger's level, writer and handler
    type as they were and hands every call to the given handler (under the
    prefix decoration when the flag is set): which calls are written is
    decided by that handler alone.  With a built-in handler on writer [w]
    whose options name level [minLevel o], calls are written to [w] from
    that level on, whatever the Logger's own level. *)
Theorem SetCustomHandler_filters_by_its_handler
    (Sprintf : string -> list Any -> string) (l : Logger) (h : Handler)
    (w : Writer) (o : HandlerOptions) (ctx : Context) (c : LogCall) (st : World) :
  GetLevel (SetCustomHandler h l) = GetLevel l
  /\ writerType (SetCustomHandler h l) = writerType l
  /\ GetHandlerType (SetCustomHandler h l) = GetHandlerType l
  /\ runCall Sprintf (SetCustomHandler h l) ctx c st
     = (if Enabled h ctx (callLevel c)
        then Handle h ctx
               (decorate (shouldPreficMessageWithLevel l) (callRecord Sprintf c)) st
        else st)
  /\ filtersAt (minLevel o) w (SetCustomHandler (NewTextHandler w o) l)
  /\ filtersAt (minLevel o) w (SetCustomHandler (NewJSONHandler w o) l).
Proof.
  split; [reflexivity|]. split; [reflexivity|]. split; [reflexivity|].
  split.
  { unfold SetCustomHandler.
    destruct (shouldPreficMessageWithLevel l), c; reflexivity. }
  split.
  - apply (actsAs_filtersAt _ _ _ _
             (fun Sprintf => SetCustomHandler_actsAs Sprintf w FormatText o l)).
  - apply (actsAs_filtersAt _ _ _ _
             (fun Sprintf => SetCustomHandler_actsAs Sprintf w FormatJSON o l)).
Qed.

(** X6.  [SetHandler] with nil options filters at the Logger's level on
    the writer it is given.  With options it filters at their level.  In
    both cases the lines are formatted by the handler type passed in, while
    the Logger's stored handler type, writer and level stay as they were. *)
Theorem SetHandler_options_and_stored_fields
    (l : Logger) (out : Writer) (ht : HandlerType) (o : HandlerOptions)
    (opts : option HandlerOptions) :
  SetHandler out ht None l = SetHandler out ht (Some (levelOnly (level l))) l
  /\ filtersAt (level l) out (SetHandler out ht None l)
  /\ filtersAt (minLevel o) out (SetHandler out ht (Some o) l)
  /\ (forall Sprintf,
        actsAs (minLevel o) out
          (fun c => formatEntry (formatOf ht) o
                      (decorate (shouldPreficMessageWithLevel l) (callRecord Sprintf c)))
          Sprintf (SetHandler out ht (Some o) l))
  /\ GetHandlerType (SetHandler out ht opts l) = GetHandlerType l
  /\ writerType (SetHandler out ht opts l) = writerType l
  /\ GetLevel (SetHandler out ht opts l) = GetLevel l.
Proof.
  split; [reflexivity|]. split.
  { apply (actsAs_filtersAt (level l) out
             (fun Sprintf c => formatEntry (formatOf ht) (levelOnly (level l))
                (decorate (shouldPreficMessageWithLevel l) (callRecord Sprintf c)))).
    intro Sprintf. exact (SetHandler_actsAs Sprintf out ht (levelOnly (level l)) l). }
  split.
  { apply (actsAs_filtersAt (minLevel o) out
             (fun Sprintf c => formatEntry (formatOf ht) o
                (decorate (shouldPreficMessageWithLevel l) (callRecord Sprintf c)))).
    intro Sprintf. exact (SetHandler_actsAs Sprintf out ht o l). }
  split; [intro Sprintf; exact (SetHandler_actsAs Sprintf out ht o l)|].
  repeat split; reflexivity.
Qed.

(** X7.  Only the handler type [HandlerTypeJSON] selects the JSON handler:
    with any other value, the constant [HandlerTypeText] or not, [New],
    [SetOutput] and [SetLevel] build the text handler, and [GetHandlerType]
    reports the value given. *)
Theorem other_handler_types_select_text
    (out B : Writer) (T T' : Level) (p : bool) (ht : HandlerType)
    (ho : option HandlerOptions) (Hht : ht <> HandlerTypeJSON) :
  slogger (New out (Some (plainOptions T p ht ho)))
  = slogger (New out (Some (plainOptions T p HandlerTypeText ho)))
  /\ slogger (SetOutput B (New out (Some (plainOptions T p ht ho))))
     = slogger (SetOutput B (New out (Some (plainOptions T p HandlerTypeText ho))))
  /\ slogger (SetLevel T' (New out (Some (plainOptions T p ht ho))))
     = slogger (SetLevel T' (New out (Some (plainOptions T p HandlerTypeText ho))))
  /\ GetHandlerType (New out (Some (plainOptions T p ht ho))) = ht.
Proof.
  apply Z.eqb_neq in Hht.
  unfold New, SetOutput, SetLevel, SetHandler, plainOptions; simpl.
  rewrite Hht. repeat split; reflexivity.
Qed.

Lemma other_handler_types_select_text_witness :
  7 <> HandlerTypeJSON
  /\ slogger (New 1%nat (Some (plainOptions LevelInfo false 7 None)))
     = slogger (New 1%nat (Some (plainOptions LevelInfo false HandlerTypeText None))).
Proof.
  assert (H : 7 <> HandlerTypeJSON) by (unfold HandlerTypeJSON; lia).
  split; [exact H|].
  exact (proj1 (other_handler_types_select_text 1%nat 1%nat LevelInfo LevelInfo
                  false 7 None H)).
Defined.

(** X8.  On a Logger whose handler is a built-in one on writer [w], a
    sequence of leveled calls only appends to [w]: what [w] held stays in
    front, at most one line per call is added, and no other writer
    changes. *)
Theorem logging_only_appends
    (Sprintf : string -> list Any -> string) (l : Logger) (w : Writer)
    (Hb : builtinOn w (handler (slogger l)))
    (ctx : Context) (cs : list LogCall) (st : World) :
  (forall A, A <> w -> written (runCalls Sprintf l ctx cs st) A = written st A)
  /\ exists new,
       written (runCalls Sprintf l ctx cs st) w = written st w ++ new
       /\ (length new <= length cs)%nat.
Proof.
  destruct (builtinOn_actsAs w l Sprintf Hb) as (thr & f & Hact).
  destruct (runCalls_actsAs thr w f Sprintf l ctx cs Hact st) as [H1 H2].
  split; [exact H1|].
  eexists. split; [exact H2|].
  rewrite length_map. apply List.filter_length_le.
Qed.

Lemma logging_only_appends_witness :
  builtinOn 2%nat (handler (slogger (SetOutput 2%nat (New 1%nat None))))
  /\ (forall A, A <> 2%nat ->
        written (runCalls (fun f _ => f) (SetOutput 2%nat (New 1%nat None)) Background
                   [CallLog LevelInfo "a" []; CallLogf LevelDebug "b" []] ∅) A
        = written ∅ A).
Proof.
  assert (Hb : builtinOn 2%nat (handler (slogger (SetOutput 2%nat (New 1%nat None)))))
    by apply builtin_text.
  split; [exact Hb|].
  exact (proj1 (logging_only_appends (fun f _ => f) (SetOutput 2%nat (New 1%nat None))
                  2%nat Hb Background
                  [CallLog LevelInfo "a" []; CallLogf LevelDebug "b" []] ∅)).
Defined.

(** X9.  On a Logger whose handler is a built-in one, the calls that are
    written form an upper set of levels: when a call at some level is
    written, every call at that level or above is written too. *)
Theorem written_levels_are_upward_closed
    (Sprintf : string -> list Any -> string) (l : Logger) (w : Writer)
    (Hb : builtinOn w (handler (slogger l)))
    (ctx ctx' : Context) (c c' : LogCall) (st st' : World)
    (Hw : runCall Sprintf l ctx c st <> st)
    (Hle : callLevel c <= callLevel c') :
  writesTo st' (runCall Sprintf l ctx' c' st') w.
Proof.
  destruct (builtinOn_actsAs w l Sprintf Hb) as (thr & f & Hact).
  rewrite (Hact ctx c st) in Hw. rewrite (Hact ctx' c' st').
  destruct (Z.leb_spec thr (callLevel c)) as [H|H]; [|congruence].
  destruct (Z.leb_spec thr (callLevel c')) as [H'|H']; [|lia].
  eexists. reflexivity.
Qed.

Lemma written_levels_are_upward_closed_witness :
  builtinOn 1%nat (handler (slogger (New 1%nat None)))
  /\ runCall (fun f _ => f) (New 1%nat None) Background (CallLog LevelWarn "w" []) ∅ <> ∅
  /\ callLevel (CallLog LevelWarn "w" []) <= callLevel (CallLogf (LevelError + 4) "f" [])
  /\ writesTo ∅ (runCall (fun f _ => f) (New 1%nat None) Background
                   (CallLogf (LevelError + 4) "f" []) ∅) 1%nat.
Proof.
  assert (Hb : builtinOn 1%nat (handler (slogger (New 1%nat None))))
    by apply builtin_text.
  assert (Hw : runCall (fun f _ => f) (New 1%nat None) Background
                 (CallLog LevelWarn "w" []) ∅ <> ∅)
    by (exact (Write_changes _ _ _)).
  assert (Hle : callLevel (CallLog LevelWarn "w" [])
                <= callLevel (CallLogf (LevelError + 4) "f" []))
    by (simpl; unfold LevelWarn, LevelError; lia).
  split; [exact Hb|]. split; [exact Hw|]. split; [exact Hle|].
  exact (written_levels_are_upward_closed (fun f _ => f) (New 1%nat None) 1%nat Hb
           Background Background (CallLog LevelWarn "w" [])
           (CallLogf (LevelError + 4) "f" []) ∅ ∅ Hw Hle).
Defined.

(** X10.  The arguments of [Log] given as key/value pairs with string keys
    reach the handler as the attributes of the record, pair by pair and in
    order; a string left over at the end is recorded under the key
    "!BADKEY". *)
Theorem Log_attaches_key_value_pairs
    (out : Writer) (T S : Level) (p : bool) (ht : HandlerType)
    (ho : option HandlerOptions) (ctx : Context) (msg k : string)
    (kvs : list (string * Any)) (st : World) :
  Log (New out (Some (plainOptions T p ht ho))) ctx S msg (keyValueArgs kvs) st
  = (if minLevel (default (levelOnly T) ho) <=? S
     then Write out
            (formatEntry (formatOf ht) (default (levelOnly T) ho)
               (decorate p {| r_Level := S; r_Message := msg; r_Attrs := kvs |})) st
     else st)
  /\ Log (New out (Some (plainOptions T p ht ho))) ctx S msg
         (keyValueArgs kvs ++ [AStr k]) st
     = (if minLevel (default (levelOnly T) ho) <=? S
        then Write out
               (formatEntry (formatOf ht) (default (levelOnly T) ho)
                  (decorate p {| r_Level := S; r_Message := msg;
                                 r_Attrs := kvs ++ [("!BADKEY", AStr k)] |})) st
        else st).
Proof.
  split.
  - pose proof (New_actsAs (fun f _ => f) out T p ht ho ctx
                  (CallLog S msg (keyValueArgs kvs)) st) as H.
    simpl in H. rewrite H.
    rewrite <- (app_nil_r (keyValueArgs kvs)) at 1.
    rewrite argsToAttrs_keyValueArgs. simpl. rewrite app_nil_r. reflexivity.
  - pose proof (New_actsAs (fun f _ => f) out T p ht ho ctx
                  (CallLog S msg (keyValueArgs kvs ++ [AStr k])) st) as H.
    simpl in H. rewrite H. rewrite argsToAttrs_keyValueArgs. reflexivity.
Qed.

(** X18.  For a Logger that [New] builds from options without a custom
    handler and without [HandlerOptions], and that is reconfigured by
    [SetOutput] and [SetLevel] only, the level [GetLevel] reports is the
    level calls are filtered at, after any number of such calls.  The lines
    go to the writer of the last [SetOutput] when no [SetLevel] came after
    it, and to the writer given to [New] otherwise. *)
Theorem GetLevel_is_the_filter_under_SetOutput_and_SetLevel
    (out : Writer) (T : Level) (p : bool) (ht : HandlerType)
    (ms : list Mutator) (Hms : forallb outputOrLevel ms = true) :
  filtersAt (GetLevel (mutateAll ms (New out (Some (plainOptions T p ht None)))))
            (writerAfter ms out)
            (mutateAll ms (New out (Some (plainOptions T p ht None)))).
Proof.
  induction ms as [|m ms' _] using rev_ind.
  { apply (actsAs_filtersAt _ _ _ _
             (fun Sprintf => New_actsAs Sprintf out T p ht None)). }
  unfold writerAfter. rewrite last_snoc.
  unfold mutateAll. rewrite fold_left_app. simpl.
  fold (mutateAll ms' (New out (Some (plainOptions T p ht None)))).
  set (l' := mutateAll ms' (New out (Some (plainOptions T p ht None)))).
  assert (Hw : writerType l' = out).
  { exact (proj1 (mutateAll_keeps_fields ms'
                    (New out (Some (plainOptions T p ht None))))). }
  rewrite forallb_app in Hms. apply andb_prop in Hms as [_ Hm]. simpl in Hm.
  destruct m as [o h0 opts|B|T'|h0]; try discriminate Hm; simpl.
  - apply (actsAs_filtersAt (level l') B
             (fun Sprintf c => formatEntry (formatOf (handlerType l')) (levelOnly (level l'))
                (decorate (shouldPreficMessageWithLevel l') (callRecord Sprintf c)))).
    intro Sprintf.
    exact (SetHandler_actsAs Sprintf B (handlerType l') (levelOnly (level l')) l').
  - rewrite <- Hw.
    apply (actsAs_filtersAt T' (writerType l')
             (fun Sprintf c => formatEntry (formatOf (handlerType l')) (levelOnly T')
                (decorate (shouldPreficMessageWithLevel l') (callRecord Sprintf c)))).
    intro Sprintf.
    exact (SetHandler_actsAs Sprintf (writerType l') (handlerType l') (levelOnly T')
             {| level := T';
                shouldPreficMessageWithLevel := shouldPreficMessageWithLevel l';
                handlerType := handlerType l';
                writerType := writerType l';
                slogger := slogger l' |}).
Qed.

Lemma GetLevel_is_the_filter_under_SetOutput_and_SetLevel_witness :
  forallb outputOrLevel [MSetLevel LevelWarn; MSetOutput 2%nat] = true
  /\ filtersAt LevelWarn 2%nat
       (mutateAll [MSetLevel LevelWarn; MSetOutput 2%nat]
          (New 1%nat (Some (plainOptions LevelInfo false HandlerTypeText None)))).
Proof.
  split; [reflexivity|].
  exact (GetLevel_is_the_filter_under_SetOutput_and_SetLevel 1%nat LevelInfo false
           HandlerTypeText [MSetLevel LevelWarn; MSetOutput 2%nat] eq_refl).
Defined.

End ExtraLogger.

(** ** Further properties of the package-level logger and of the two
    revisions *)

Section ExtraPackage.
Import Context Reconfigure.

(** X11.  The package-level logger starts as the Logger [New] makes on
    standard output without options: package-level calls at INFO and above
    write one text line with the message as given, Debug writes nothing.
    After the package-level [SetOutput B] the calls go to B; a
    package-level [SetLevel T] after that sends the calls at or above T to
    standard output again. *)
Theorem package_logger_defaults
    (Sprintf : string -> list Any -> string) (B : Writer) (T S : Level)
    (ctx : Context) (msg format : string) (args : list Any) (st : World) :
  SlogrPackage.defaultLogger = New SlogrPackage.Stdout None
  /\ SlogrPackage.GetLevel SlogrPackage.defaultLogger = LevelInfo
  /\ SlogrPackage.Log SlogrPackage.defaultLogger ctx S msg args st
     = (if LevelInfo <=? S
        then Write SlogrPackage.Stdout
               (formatEntry FormatText
                  {| ho_AddSource := false; ho_Level := Some LevelInfo;
                     ho_ReplaceAttr := Some (fun _ a => a) |}
                  {| r_Level := S; r_Message := msg; r_Attrs := argsToAttrs args |}) st
        else st)
  /\ SlogrPackage.Logf Sprintf SlogrPackage.defaultLogger ctx S format args st
     = (if LevelInfo <=? S
        then Write SlogrPackage.Stdout
               (formatEntry FormatText
                  {| ho_AddSource := false; ho_Level := Some LevelInfo;
                     ho_ReplaceAttr := Some (fun _ a => a) |}
                  {| r_Level := S; r_Message := Sprintf format args; r_Attrs := [] |}) st
        else st)
  /\ SlogrPackage.Debug SlogrPackage.defaultLogger ctx msg args st = st
  /\ SlogrPackage.Debugf Sprintf SlogrPackage.defaultLogger ctx format args st = st
  /\ filtersAt LevelInfo B (SlogrPackage.SetOutput B SlogrPackage.defaultLogger)
  /\ SlogrPackage.GetLevel
       (SlogrPackage.SetLevel T (SlogrPackage.SetOutput B SlogrPackage.defaultLogger)) = T
  /\ filtersAt T SlogrPackage.Stdout
       (SlogrPackage.SetLevel T (SlogrPackage.SetOutput B SlogrPackage.defaultLogger)).
Proof.
  split; [reflexivity|]. split; [reflexivity|].
  split; [reflexivity|]. split; [reflexivity|].
  split; [reflexivity|]. split; [reflexivity|].
  split.
  { apply (actsAs_filtersAt LevelInfo B
             (fun Sprintf c => formatEntry FormatText (levelOnly LevelInfo)
                (decorate false (callRecord Sprintf c)))).
    intro Sp.
    exact (SetHandler_actsAs Sp B HandlerTypeText (levelOnly LevelInfo)
             SlogrPackage.defaultLogger). }
  split; [reflexivity|].
  apply (actsAs_filtersAt T SlogrPackage.Stdout
           (fun Sprintf c => formatEntry FormatText (levelOnly T)
              (decorate false (callRecord Sprintf c)))).
  intro Sp.
  exact (SetHandler_actsAs Sp SlogrPackage.Stdout HandlerTypeText (levelOnly T)
           {| level := T;
              shouldPreficMessageWithLevel := false;
              handlerType := HandlerTypeText;
              writerType := SlogrPackage.Stdout;
              slogger := slogger (SetOutput B SlogrPackage.defaultLogger) |}).
Qed.

(** X12.  The revision without [fmt.Sprintf] differs from the other one in
    three places.  Its [New] without options switches the prefix
    decoration on (with options the two agree), so its package-level logger
    writes "- LEVEL - message".  Its [Log] attaches no attributes.  Its
    [Logf] is the other revision's [Log]: the arguments become
    attributes. *)
Theorem previous_revision_differences
    (out : Writer) (o : Options) (l : Logger) (ctx : Context) (S : Level)
    (message : string) (args : list Any) (st : World) :
  SlogrPrev.New out None = New out (Some (withPrefix true DefaultOptions))
  /\ SlogrPrev.New out (Some o) = New out (Some o)
  /\ SlogrPrevPackage.Log SlogrPrevPackage.defaultLogger ctx S message st
     = (if LevelInfo <=? S
        then Write SlogrPackage.Stdout
               (formatEntry FormatText
                  {| ho_AddSource := false; ho_Level := Some LevelInfo;
                     ho_ReplaceAttr := Some (fun _ a => a) |}
                  {| r_Level := S; r_Message := prefixed S message; r_Attrs := [] |}) st
        else st)
  /\ SlogrPrev.Log l ctx S message st = Log l ctx S message [] st
  /\ SlogrPrev.Logf l ctx S message args st = Log l ctx S message args st
  /\ SlogrPrevPackage.Fatal l ctx message st = Fatal l ctx message [] st.
Proof. repeat split; reflexivity. Qed.

End ExtraPackage.

(** ** Further properties of the level parser *)

Section ExtraParseLevel.
Import Strings SlogLevel LevelParser Letters.

Lemma ParseLevel_levelOfName (mapUnicodeUpper : string -> string) :
  unicodeUpperSpec mapUnicodeUpper ->
  forall s, ParseLevel mapUnicodeUpper s = levelOfName s.
Proof.
  intros HU s. unfold ParseLevel, levelOfName, ToUpper.
  destruct (allBytes isASCIIByte s) eqn:Hs; cbv zeta.
  - rewrite !mapBytes_upper_eqb by reflexivity. reflexivity.
  - rewrite !(eqFold_non_ascii s) by (assumption || reflexivity).
    specialize (HU s Hs).
    rewrite (anyByte_eqb_false _ _ "WARN" HU) by reflexivity.
    rewrite (anyByte_eqb_false _ _ "ERROR" HU) by reflexivity.
    rewrite (anyByte_eqb_false _ _ "DEBUG" HU) by reflexivity.
    destruct (String.eqb (mapUnicodeUpper s) "INFO"); reflexivity.
Qed.

Lemma fold_upper_is_letter (a b : ascii) :
  isUpper b = true -> foldByteEq a b = true -> isLetter a = true.
Proof.
  destruct b as [[] [] [] [] [] [] [] []]; intro Hb;
    try (cbv in Hb; discriminate Hb); clear Hb;
    destruct a as [[] [] [] [] [] [] [] []]; vm_compute;
    first [ reflexivity | intro H; discriminate H ].
Qed.

Lemma eqFold_letters (s t : string) :
  allBytes isUpper t = true -> eqFoldASCII s t = true ->
  allBytes isLetter s = true.
Proof.
  revert t. induction s as [|a s IH]; intros [|b t] Ht H; simpl in *;
    try reflexivity; try discriminate.
  apply andb_prop in Ht as [Hb Ht]. apply andb_prop in H as [Hab H].
  rewrite (fold_upper_is_letter a b Hb Hab). simpl. exact (IH t Ht H).
Qed.

Lemma eqFold_length (s t : string) :
  eqFoldASCII s t = true -> String.length s = String.length t.
Proof.
  revert t. induction s as [|a s IH]; intros [|b t] H; simpl in *;
    try reflexivity; try discriminate.
  apply andb_prop in H as [_ H]. f_equal. exact (IH t H).
Qed.

Lemma levelOfName_non_letter (s : string) :
  allBytes isLetter s = false -> levelOfName s = LevelInfo.
Proof.
  intro Hs. unfold levelOfName.
  assert (Hno : forall t, allBytes isUpper t = true -> eqFoldASCII s t = false).
  { intros t Ht. destruct (eqFoldASCII s t) eqn:E; [|reflexivity].
    rewrite (eqFold_letters s t Ht E) in Hs. discriminate. }
  rewrite !Hno by reflexivity. reflexivity.
Qed.

(** X13.  [ParseLevel] does no trimming and tolerates no stray byte: a
    string that holds any byte other than an ASCII letter (a space, a
    digit, a sign, a byte of a non-ASCII rune), or whose length is neither
    4 nor 5 bytes, parses as INFO. *)
Theorem ParseLevel_rejects_non_names
    (mapUnicodeUpper : string -> string)
    (HU : unicodeUpperSpec mapUnicodeUpper) (s : string) :
  (allBytes isLetter s = false -> ParseLevel mapUnicodeUpper s = LevelInfo)
  /\ (String.length s <> 4%nat -> String.length s <> 5%nat ->
      ParseLevel mapUnicodeUpper s = LevelInfo).
Proof.
  rewrite (ParseLevel_levelOfName mapUnicodeUpper HU s). split.
  - apply levelOfName_non_letter.
  - intros H4 H5. unfold levelOfName.
    assert (Hno : forall t, (String.length t = 4 \/ String.length t = 5)%nat ->
                            eqFoldASCII s t = false).
    { intros t Ht. destruct (eqFoldASCII s t) eqn:E; [|reflexivity].
      apply eqFold_length in E. lia. }
    rewrite !Hno by (simpl; lia). reflexivity.
Qed.

Lemma ParseLevel_rejects_non_names_witness :
  unicodeUpperSpec (fun s => s)
  /\ allBytes isLetter "warn " = false
  /\ ParseLevel (fun s => s) "warn " = LevelInfo.
Proof.
  split; [exact unicodeUpperSpec_id|]. split; [reflexivity|].
  exact (proj1 (ParseLevel_rejects_non_names (fun s => s) unicodeUpperSpec_id "warn ")
           eq_refl).
Defined.

(** X14.  [ParseLevel] reads back the name [Level.String] gives to DEBUG,
    INFO, WARN and ERROR, and only those: the name of any other level,
    such as "ERROR+4" for the level of Fatal, parses as INFO. *)
Theorem ParseLevel_of_LevelString
    (mapUnicodeUpper : string -> string)
    (HU : unicodeUpperSpec mapUnicodeUpper) (l : Level) :
  (l = LevelDebug \/ l = LevelInfo \/ l = LevelWarn \/ l = LevelError ->
   ParseLevel mapUnicodeUpper (LevelString l) = l)
  /\ (l <> LevelDebug -> l <> LevelInfo -> l <> LevelWarn -> l <> LevelError ->
      ParseLevel mapUnicodeUpper (LevelString l) = LevelInfo).
Proof.
  split.
  - intros [H|[H|[H|H]]]; subst l; reflexivity.
  - intros Hd Hi Hw He.
    rewrite (ParseLevel_levelOfName mapUnicodeUpper HU).
    apply levelOfName_non_letter.
    unfold LevelDebug, LevelInfo, LevelWarn, LevelError in *.
    unfold LevelString, str, signedDecimal, LevelDebug, LevelInfo, LevelWarn, LevelError.
    destruct (Z.ltb_spec l 0);
      [|destruct (Z.ltb_spec l 4); [|destruct (Z.ltb_spec l 8)]];
      match goal with
      | |- context [?v =? 0] => destruct (Z.eqb_spec v 0); [lia|]
      end;
      match goal with
      | |- context [?v <? 0] => destruct (v <? 0)
      end;
      generalize (pretty (Z.abs_N (l - -4))), (pretty (Z.abs_N (l - 0))),
                 (pretty (Z.abs_N (l - 4))), (pretty (Z.abs_N (l - 8)));
      intros; reflexivity.
Qed.

Lemma ParseLevel_of_LevelString_witness :
  unicodeUpperSpec (fun s => s)
  /\ LevelError + 4 <> LevelDebug /\ LevelError + 4 <> LevelInfo
  /\ LevelError + 4 <> LevelWarn /\ LevelError + 4 <> LevelError
  /\ ParseLevel (fun s => s) (LevelString (LevelError + 4)) = LevelInfo.
Proof.
  assert (Hd : LevelError + 4 <> LevelDebug) by (unfold LevelError, LevelDebug; lia).
  assert (Hi : LevelError + 4 <> LevelInfo) by (unfold LevelError, LevelInfo; lia).
  assert (Hw : LevelError + 4 <> LevelWarn) by (unfold LevelError, LevelWarn; lia).
  assert (He : LevelError + 4 <> LevelError) by (unfold LevelError; lia).
  repeat (split; [first [exact unicodeUpperSpec_id | assumption]|]).
  exact (proj2 (ParseLevel_of_LevelString (fun s => s) unicodeUpperSpec_id (LevelError + 4))
           Hd Hi Hw He).
Defined.

End ExtraParseLevel.

(** ** Further properties of the context carrier *)

Section ExtraContext.
Import Context ContextCarrier Letters.

Lemma Value_other_key (h : Heap) (p : Context) (k k' : Key) (v : CtxValue) :
  k <> k' ->
  Value (fst (WithValue h p k v)) (snd (WithValue h p k v)) k' = Value h p k'.
Proof.
  intro Hk. simpl. rewrite Nat.eqb_refl.
  destruct (Key_eqb k k') eqn:E; [|reflexivity].
  apply Key_eqb_eq in E. contradiction.
Qed.

(** X15.  A value stored under any other key does not hide the logger:
    [FromContext] on the context derived by [context.WithValue] with a key
    different from the logger key returns what it returns on the parent.
    The plain string "slogr_logger" is such a key, its type not being
    [ContextKey]. *)
Theorem other_keys_do_not_hide_the_logger
    (h : Heap) (ctx : Context) (k : Key) (v : CtxValue) :
  (k <> LoggerKey ->
   FromContext (fst (WithValue h ctx k v)) (snd (WithValue h ctx k v))
   = FromContext h ctx)
  /\ FromContext (fst (WithValue h ctx plainStringKey v))
                 (snd (WithValue h ctx plainStringKey v))
     = FromContext h ctx.
Proof.
  assert (H : forall k, k <> LoggerKey ->
            FromContext (fst (WithValue h ctx k v)) (snd (WithValue h ctx k v))
            = FromContext h ctx).
  { intros k0 Hk. unfold FromContext. rewrite Value_other_key by exact Hk. reflexivity. }
  split; [apply H|]. apply H. discriminate.
Qed.

Lemma other_keys_do_not_hide_the_logger_witness :
  {| keyType := "main.key"; keyValue := "request_id" |} <> LoggerKey
  /\ FromContext
       (fst (WithValue (fst (WithLogger [] Background (Some 7%nat)))
                       (snd (WithLogger [] Background (Some 7%nat)))
                       {| keyType := "main.key"; keyValue := "request_id" |}
                       (OfOther "string" "r-1")))
       (snd (WithValue (fst (WithLogger [] Background (Some 7%nat)))
                       (snd (WithLogger [] Background (Some 7%nat)))
                       {| keyType := "main.key"; keyValue := "request_id" |}
                       (OfOther "string" "r-1")))
     = FromContext (fst (WithLogger [] Background (Some 7%nat)))
                   (snd (WithLogger [] Background (Some 7%nat))).
Proof.
  assert (Hk : {| keyType := "main.key"; keyValue := "request_id" |} <> LoggerKey)
    by discriminate.
  split; [exact Hk|].
  exact (proj1 (other_keys_do_not_hide_the_logger
                  (fst (WithLogger [] Background (Some 7%nat)))
                  (snd (WithLogger [] Background (Some 7%nat)))
                  {| keyType := "main.key"; keyValue := "request_id" |}
                  (OfOther "string" "r-1")) Hk).
Defined.

(** X16.  A value of another type, or the nil interface, stored under the
    logger key hides any logger of the parent: [FromContext] on the derived
    context returns nil. *)
Theorem non_logger_under_logger_key_hides_logger
    (h : Heap) (ctx : Context) (type value : string) :
  FromContext (fst (WithValue h ctx LoggerKey (OfOther type value)))
              (snd (WithValue h ctx LoggerKey (OfOther type value))) = None
  /\ FromContext (fst (WithValue h ctx LoggerKey NilInterface))
                 (snd (WithValue h ctx LoggerKey NilInterface)) = None.
Proof.
  unfold FromContext. rewrite !Value_head. split; reflexivity.
Qed.

(** X17.  Nested [WithLogger] calls shadow and restore: on the inner
    context [FromContext] returns the logger stored last, on the outer
    context it still returns the logger stored first; and every context
    valid before a derivation is valid after it, as is the derived one. *)
Theorem nested_WithLogger_shadows_and_restores
    (h : Heap) (ctx : Context) (L1 L2 : LoggerRef) :
  let h1 := fst (WithLogger h ctx L1) in
  let c1 := snd (WithLogger h ctx L1) in
  let h2 := fst (WithLogger h1 c1 L2) in
  let c2 := snd (WithLogger h1 c1 L2) in
  FromContext h2 c2 = L2
  /\ FromContext h2 c1 = L1
  /\ ctxValid h1 c1
  /\ ctxValid h2 c2
  /\ (forall c, ctxValid h c -> ctxValid h2 c).
Proof.
  cbv zeta. split; [|split; [|split; [|split]]].
  - unfold FromContext, WithLogger. rewrite Value_head. reflexivity.
  - pose proof (Value_head h ctx LoggerKey (OfLogger L1)) as Hv.
    unfold FromContext, WithLogger. simpl fst in *. simpl snd in *.
    rewrite Value_older by (simpl; lia). rewrite Hv. reflexivity.
  - simpl. lia.
  - simpl. lia.
  - intros [|a]; simpl; [tauto|lia].
Qed.

Lemma nested_WithLogger_shadows_and_restores_witness :
  ctxValid [] Background
  /\ FromContext
       (fst (WithLogger (fst (WithLogger [] Background (Some 1%nat)))
                        (snd (WithLogger [] Background (Some 1%nat))) (Some 2%nat)))
       (snd (WithLogger [] Background (Some 1%nat)))
     = Some 1%nat.
Proof.
  split; [exact I|].
  exact (proj1 (proj2 (nested_WithLogger_shadows_and_restores [] Background
                         (Some 1%nat) (Some 2%nat)))).
Defined.

End ExtraContext.
